(** * alx_travel_app: listings serializers and models

    A shallow embedding of [listings/models.py] and
    [listings/serializers.py]: the three tables, the serializer
    validators, the derived fields and the create path, followed by the
    properties the specification states about them. *)

From Stdlib Require Import ZArith List Lia Bool.
From Stdlib Require Import Floats.SpecFloat.
From stdpp Require Import base option list gmap strings.

Local Open Scope string_scope.
Local Open Scope list_scope.
Local Open Scope Z_scope.

(** ** Exceptions and results

    A Python call either returns or raises.  Only the exceptions that
    the modelled code can raise are listed. *)

Inductive exn : Type :=
  | ValidationError (msg : string)
  | TypeError
  | ZeroDivisionError
  | OverflowError
  | InvalidOperation
  | IntegrityError
  | ProtectedError.

Inductive outcome (A : Type) : Type :=
  | Ok (a : A)
  | Raise (e : exn).
Arguments Ok {A} a.
Arguments Raise {A} e.

#[global] Instance outcome_ret : MRet outcome := fun A a => Ok a.

#[global] Instance outcome_bind : MBind outcome := fun A B k m =>
  match m with
  | Ok a => k a
  | Raise e => Raise e
  end.

(** ** Dates

    [datetime.date] compares as the tuple (year, month, day). *)

Record date : Type := mkDate { year : Z; month : Z; day : Z }.

Definition date_ltb (a b : date) : bool :=
  (year a <? year b)
  || ((year a =? year b)
      && ((month a <? month b)
          || ((month a =? month b) && (day a <? day b)))).

Definition date_lt (a b : date) : Prop :=
  year a < year b
  \/ (year a = year b
      /\ (month a < month b \/ (month a = month b /\ day a < day b))).

(** ** Binary64 floats and [decimal.Decimal]

    Python floats are IEEE 754 binary64 numbers, taken here from the
    specification of floating-point arithmetic in the Standard Library. *)

Module Float64.

Definition prec : Z := 53.
Definition emax : Z := 1024.

(** An integer as a sign and a magnitude with exponent 0. *)
Definition of_int (a : Z) : spec_float :=
  match a with
  | Z0 => S754_zero false
  | Zpos p => S754_finite false p 0
  | Zneg p => S754_finite true p 0
  end.

(** [a / b] on Python integers: the correctly rounded quotient;
    a quotient too large for a float raises. *)
Definition int_true_div (a b : Z) : outcome spec_float :=
  if b =? 0 then Raise ZeroDivisionError
  else
    match SFdiv prec emax (of_int a) (of_int b) with
    | S754_infinity _ => Raise OverflowError
    | f => Ok f
    end.

End Float64.

(** A decimal number: (-1)^sign * coefficient * 10^exponent, or one of
    the special values. *)
Inductive Decimal : Type :=
  | DFinite (sign : bool) (coeff : Z) (exponent : Z)
  | DInfinity (sign : bool)
  | DNaN.

Module Dec.

(** Precision of the default decimal context. *)
Definition context_prec : Z := 28.

(** [Decimal(f)] for a float: the exact value, never rounded.  A
    binary fraction m * 2^e with e < 0 is m * 5^(-e) * 10^e. *)
Definition from_float (f : spec_float) : Decimal :=
  match f with
  | S754_zero s => DFinite s 0 0
  | S754_finite s m e =>
      if 0 <=? e then DFinite s (Zpos m * 2 ^ e) 0
      else DFinite s (Zpos m * 5 ^ (- e)) e
  | S754_infinity s => DInfinity s
  | S754_nan => DNaN
  end.

(** The coefficient of a finite decimal brought to exponent -1 under
    ROUND_HALF_UP: digits beyond the first decimal place are dropped
    and the coefficient goes up by one when the dropped part is at
    least half a unit. *)
Definition tenths_half_up (coeff exponent : Z) : Z :=
  if -1 <=? exponent then coeff * 10 ^ (exponent + 1)
  else
    let unit := 10 ^ (- 1 - exponent) in
    let q := coeff / unit in
    let r := coeff mod unit in
    if unit <=? 2 * r then q + 1 else q.

(** [d.quantize(Decimal('0.1'), rounding=ROUND_HALF_UP)]: a result of
    more than [context_prec] digits is refused, and so is an
    infinity. *)
Definition quantize_tenths_half_up (d : Decimal) : outcome Decimal :=
  match d with
  | DFinite s c e =>
      let c' := tenths_half_up c e in
      if 10 ^ context_prec <=? c' then Raise InvalidOperation
      else Ok (DFinite s c' (-1))
  | DInfinity _ => Raise InvalidOperation
  | DNaN => Ok DNaN
  end.

(** [float(d)]: the binary64 number nearest to the decimal, which is
    the quotient of two integers. *)
Definition to_float (d : Decimal) : outcome spec_float :=
  match d with
  | DFinite s c e =>
      if c =? 0 then Ok (S754_zero s)
      else if e <=? 0 then
        Float64.int_true_div (if s then - c else c) (10 ^ (- e))
      else
        Float64.int_true_div ((if s then - c else c) * 10 ^ e) 1
  | DInfinity s => Ok (S754_infinity s)
  | DNaN => Ok S754_nan
  end.

End Dec.

(** ** Values

    The values that travel through the serializers: request payloads,
    validated data and serialized output are dictionaries from field
    names to these. *)

(** A UUID is its 128-bit integer; a user is the primary key of its
    [auth.User] row. *)
Abbreviation uuid := Z.
Abbreviation user_id := Z.

Inductive pyval : Type :=
  | VNone
  | VInt (z : Z)
  | VStr (s : string)
  | VFloat (f : spec_float)
  | VDate (d : date)
  | VUser (u : user_id)
  | VListing (pk : uuid).

Abbreviation dict := (gmap string pyval).

#[global] Instance date_eq_dec : EqDecision date.
Proof. solve_decision. Defined.

#[global] Instance spec_float_eq_dec : EqDecision spec_float.
Proof. solve_decision. Defined.

#[global] Instance pyval_eq_dec : EqDecision pyval.
Proof. solve_decision. Defined.

(** [d.get(k)]: the value under [k], or [None]. *)
Definition dict_get (d : dict) (k : string) : pyval :=
  default VNone (d !! k).

(** Truth value of an object in a condition. *)
Definition truthy (v : pyval) : bool :=
  match v with
  | VNone => false
  | VInt z => negb (z =? 0)
  | VStr s => negb (String.eqb s "")
  | VFloat (S754_zero _) => false
  | VFloat _ => true
  | VDate _ => true
  | VUser _ => true
  | VListing _ => true
  end.

(** [a < b]: defined within integers, within strings and within dates;
    the operands met here are the dates a [DateField] produces. *)
Definition py_lt (a b : pyval) : outcome bool :=
  match a, b with
  | VInt x, VInt y => Ok (x <? y)
  | VStr x, VStr y => Ok (String.ltb x y)
  | VDate x, VDate y => Ok (date_ltb x y)
  | _, _ => Raise TypeError
  end.

(** ** models.py *)

Inductive on_delete_rule : Type :=
  | CASCADE
  | PROTECT.

Module Listing.
Record t : Type := mk {
  id : uuid;
  title : string;
  description : string;
  location : string;
  price_per_night : Z;  (* in hundredths: DecimalField(decimal_places=2) *)
  created_at : Z
}.
End Listing.

Module Booking.
Record t : Type := mk {
  id : uuid;
  listing : uuid;
  user : user_id;
  start_date : date;
  end_date : date;
  created_at : Z
}.

Definition listing_on_delete : on_delete_rule := CASCADE.
Definition user_on_delete : on_delete_rule := CASCADE.
End Booking.

Module Review.
Record t : Type := mk {
  id : uuid;
  listing : uuid;
  user : user_id;
  rating : Z;
  comment : string;
  created_at : Z
}.

Definition listing_on_delete : on_delete_rule := CASCADE.
Definition user_on_delete : on_delete_rule := CASCADE.
End Review.

(** The relational store: one list of rows per table, in insertion
    order. *)
Record DB : Type := mkDB {
  listings : list Listing.t;
  bookings : list Booking.t;
  reviews : list Review.t
}.

Definition empty_db : DB := mkDB [] [] [].

(** ** The ORM calls the serializers make *)

(** [qs.exists()] *)
Definition qs_exists {A : Type} (qs : list A) : bool :=
  match qs with
  | [] => false
  | _ :: _ => true
  end.

(** [qs.count()] *)
Definition qs_count {A : Type} (qs : list A) : Z := Z.of_nat (length qs).

(** [sum(xs)] on integers: from 0, left to right. *)
Definition py_sum (xs : list Z) : Z := fold_left Z.add xs 0.

(** [Review.objects.filter(user=user, listing=listing)].  The foreign
    key is not nullable, so [listing=None] selects no row. *)
Definition Review_objects_filter (user : user_id) (listing : pyval) (db : DB)
  : list Review.t :=
  filter (fun r => Review.user r = user /\ VListing (Review.listing r) = listing)
         (reviews db).

(** [obj.reviews.all()]: the related manager declared by
    [related_name='reviews']. *)
Definition Listing_reviews (obj : Listing.t) (db : DB) : list Review.t :=
  filter (fun r => Review.listing r = Listing.id obj) (reviews db).

(** [obj.bookings.all()] *)
Definition Listing_bookings (obj : Listing.t) (db : DB) : list Booking.t :=
  filter (fun b => Booking.listing b = Listing.id obj) (bookings db).

(** [Review.objects.create] on keyword arguments: one row inserted, with
    the generated primary key and timestamp; a column left without a
    value violates NOT NULL.  The serializers pass the validated fields
    and the user, so only those keys are read. *)
Definition Review_objects_create (kwargs : dict) (new_id : uuid) (now : Z) (db : DB)
  : outcome (Review.t * DB) :=
  match kwargs !! "listing", kwargs !! "user", kwargs !! "rating", kwargs !! "comment" with
  | Some (VListing l), Some (VUser u), Some (VInt r), Some (VStr c) =>
      let row := Review.mk new_id l u r c now in
      Ok (row, mkDB (listings db) (bookings db) (reviews db ++ [row]))
  | _, _, _, _ => Raise IntegrityError
  end.

(** [Booking.objects.create] on keyword arguments. *)
Definition Booking_objects_create (kwargs : dict) (new_id : uuid) (now : Z) (db : DB)
  : outcome (Booking.t * DB) :=
  match kwargs !! "listing", kwargs !! "user",
        kwargs !! "start_date", kwargs !! "end_date" with
  | Some (VListing l), Some (VUser u), Some (VDate s), Some (VDate e) =>
      let row := Booking.mk new_id l u s e now in
      Ok (row, mkDB (listings db) (bookings db ++ [row]) (reviews db))
  | _, _, _, _ => Raise IntegrityError
  end.

(** What a foreign key does to the rows that refer to a deleted row. *)
Definition on_delete_apply {A : Type} (rule : on_delete_rule)
    (refers : A -> bool) (rows : list A) : outcome (list A) :=
  match rule with
  | CASCADE => Ok (List.filter (fun x => negb (refers x)) rows)
  | PROTECT => if existsb refers rows then Raise ProtectedError else Ok rows
  end.

(** [listing.delete()] for the listing with primary key [pk]. *)
Definition delete_listing (pk : uuid) (db : DB) : outcome DB :=
  bs ← on_delete_apply Booking.listing_on_delete
         (fun b => Booking.listing b =? pk) (bookings db);
  rs ← on_delete_apply Review.listing_on_delete
         (fun r => Review.listing r =? pk) (reviews db);
  Ok (mkDB (List.filter (fun l => negb (Listing.id l =? pk)) (listings db)) bs rs).

(** ** serializers.py *)

Module ReviewSerializer.

Definition labels : gmap Z string :=
  {[ 5 := "Excellent"; 4 := "Good"; 3 := "Average"; 2 := "Poor"; 1 := "Terrible" ]}.

Definition get_rating_label (obj : Review.t) : string :=
  default "" (labels !! Review.rating obj).

Definition validate_rating (value : Z) : outcome Z :=
  if (value <? 1) || (value >? 5) then
    Raise (ValidationError "Rating must be between 1 and 5.")
  else Ok value.

(** [request_user] is [self.context['request'].user]. *)
Definition validate (request_user : user_id) (data : dict) (db : DB)
  : outcome dict :=
  let user := request_user in
  let listing := dict_get data "listing" in
  if qs_exists (Review_objects_filter user listing db) then
    Raise (ValidationError "You have already reviewed this listing.")
  else Ok data.

Definition create (request_user : user_id) (validated_data : dict)
    (new_id : uuid) (now : Z) (db : DB) : outcome (Review.t * DB) :=
  let validated_data := <["user" := VUser request_user]> validated_data in
  Review_objects_create validated_data new_id now db.

End ReviewSerializer.

Module ListingSerializer.

(** [source='reviews.count'] *)
Definition reviews_count (obj : Listing.t) (db : DB) : Z :=
  qs_count (Listing_reviews obj db).

Definition get_average_rating (obj : Listing.t) (db : DB) : outcome pyval :=
  let reviews := Listing_reviews obj db in
  if negb (qs_exists reviews) then Ok VNone
  else
    avg ← Float64.int_true_div (py_sum (map Review.rating reviews))
                               (qs_count reviews);
    q ← Dec.quantize_tenths_half_up (Dec.from_float avg);
    f ← Dec.to_float q;
    Ok (VFloat f).

End ListingSerializer.

Module BookingSerializer.

Definition validate (data : dict) : outcome dict :=
  let start := dict_get data "start_date" in
  let end_ := dict_get data "end_date" in
  if truthy start then
    if truthy end_ then
      before ← py_lt end_ start;
      if (before : bool) then
        Raise (ValidationError "End date must be after start date.")
      else Ok data
    else Ok data
  else Ok data.

Definition create (request_user : user_id) (validated_data : dict)
    (new_id : uuid) (now : Z) (db : DB) : outcome (Booking.t * DB) :=
  let validated_data := <["user" := VUser request_user]> validated_data in
  Booking_objects_create validated_data new_id now db.

End BookingSerializer.

(** ** The create requests *)

Module Api.

(** What the serializer fields make of a payload entry before the
    [validate_<field>] and [validate] hooks run, with the framework's
    messages abridged.  A [PrimaryKeyRelatedField] resolves the key in
    its queryset ([Listing.objects.all()]).  The range validators that
    the framework derives from a model column depend on the database
    backend and are left out. *)
Definition related_listing (payload : dict) (key : string) (db : DB)
  : outcome pyval :=
  match payload !! key with
  | None => Raise (ValidationError "This field is required.")
  | Some (VInt pk) =>
      if existsb (fun l => Listing.id l =? pk) (listings db)
      then Ok (VListing pk)
      else Raise (ValidationError "Invalid pk - object does not exist.")
  | Some _ => Raise (ValidationError "Incorrect type.")
  end.

Definition integer_field (payload : dict) (key : string) : outcome Z :=
  match payload !! key with
  | None => Raise (ValidationError "This field is required.")
  | Some (VInt z) => Ok z
  | Some _ => Raise (ValidationError "A valid integer is required.")
  end.

Definition char_field (payload : dict) (key : string) : outcome string :=
  match payload !! key with
  | None => Raise (ValidationError "This field is required.")
  | Some (VStr s) => Ok s
  | Some _ => Raise (ValidationError "Not a valid string.")
  end.

Definition date_field (payload : dict) (key : string) : outcome date :=
  match payload !! key with
  | None => Raise (ValidationError "This field is required.")
  | Some (VDate d) => Ok d
  | Some _ => Raise (ValidationError "Date has wrong format.")
  end.

(** The writable fields of [ReviewSerializer], in the order of
    [Meta.fields]; read-only fields of the payload are ignored. *)
Definition review_fields (payload : dict) (db : DB) : outcome dict :=
  listing ← related_listing payload "listing_id" db;
  rating ← integer_field payload "rating";
  rating ← ReviewSerializer.validate_rating rating;
  comment ← char_field payload "comment";
  Ok ({[ "listing" := listing; "rating" := VInt rating;
         "comment" := VStr comment ]} : dict).

Definition booking_fields (payload : dict) (db : DB) : outcome dict :=
  listing ← related_listing payload "listing_id" db;
  start ← date_field payload "start_date";
  end_ ← date_field payload "end_date";
  Ok ({[ "listing" := listing; "start_date" := VDate start;
         "end_date" := VDate end_ ]} : dict).

(** Modelled from the spec: the HTTP layer is not among the sources.
    It "extracts authenticated user, hands payload + user context to
    the Validation/Serialization layer; layer validates,
    mutates/reads persistence", one request at a time, each write a
    single-row insert. *)
Definition create_review (request_user : user_id) (payload : dict)
    (new_id : uuid) (now : Z) (db : DB) : outcome (Review.t * DB) :=
  data ← review_fields payload db;
  data ← ReviewSerializer.validate request_user data db;
  ReviewSerializer.create request_user data new_id now db.

Definition create_booking (request_user : user_id) (payload : dict)
    (new_id : uuid) (now : Z) (db : DB) : outcome (Booking.t * DB) :=
  data ← booking_fields payload db;
  data ← BookingSerializer.validate data;
  BookingSerializer.create request_user data new_id now db.

Definition create_listing (payload : dict) (new_id : uuid) (now : Z) (db : DB)
  : outcome (Listing.t * DB) :=
  title ← char_field payload "title";
  description ← char_field payload "description";
  location ← char_field payload "location";
  price ← integer_field payload "price_per_night";
  let row := Listing.mk new_id title description location price now in
  Ok (row, mkDB (listings db ++ [row]) (bookings db) (reviews db)).

Inductive request : Type :=
  | CreateListing (payload : dict)
  | CreateBooking (request_user : user_id) (payload : dict)
  | CreateReview (request_user : user_id) (payload : dict).

(** One request against the store; [new_id] and [now] are the
    generated primary key and timestamp. *)
Definition handle (req : request) (new_id : uuid) (now : Z) (db : DB)
  : outcome DB :=
  match req with
  | CreateListing payload =>
      '(_, db') ← create_listing payload new_id now db; Ok db'
  | CreateBooking u payload =>
      '(_, db') ← create_booking u payload new_id now db; Ok db'
  | CreateReview u payload =>
      '(_, db') ← create_review u payload new_id now db; Ok db'
  end.

(** The stores that sequences of successful create requests lead to,
    from the empty store. *)
Inductive reachable : DB -> Prop :=
  | reachable_empty : reachable empty_db
  | reachable_step db db' req new_id now :
      reachable db ->
      handle req new_id now db = Ok db' ->
      reachable db'.

End Api.

(** ** One review per user and listing *)

(** The reviews of the store written by [u] for listing [l]. *)
Definition reviews_by_for (u : user_id) (l : uuid) (db : DB) : list Review.t :=
  filter (fun r => Review.user r = u /\ Review.listing r = l) (reviews db).

Definition review_key (r : Review.t) : user_id * uuid :=
  (Review.user r, Review.listing r).

(** No two review rows share their user and listing. *)
Definition unique_reviews (db : DB) : Prop :=
  NoDup (review_key <$> reviews db).

(** ** The specification's average

    The reading of the specification, to compare with
    [ListingSerializer.get_average_rating]: the exact mean sum / n in
    tenths, halves going up, then the nearest float. *)

Definition mean_tenths_half_up (ratings : list Z) : Z :=
  let n := Z.of_nat (length ratings) in
  (2 * 10 * py_sum ratings + n) / (2 * n).

Definition spec_average_rating (ratings : list Z) : outcome pyval :=
  match ratings with
  | [] => Ok VNone
  | _ :: _ =>
      f ← Dec.to_float (DFinite false (mean_tenths_half_up ratings) (-1));
      Ok (VFloat f)
  end.

(** ** Sample data *)

Module Sample.

Definition listing_1 : Listing.t :=
  Listing.mk 1 "Sea view flat" "Two rooms" "Mombasa" 450000 0.

Definition review (pk : uuid) (author : user_id) (stars : Z) : Review.t :=
  Review.mk pk 1 author stars "stayed here" 0.

Definition booking (pk : uuid) (guest : user_id) : Booking.t :=
  Booking.mk pk 1 guest (mkDate 2024 1 10) (mkDate 2024 1 12) 0.

(** Ratings 4, 5, 3. *)
Definition db_453 : DB :=
  mkDB [listing_1] [booking 1 7] [review 1 1 4; review 2 2 5; review 3 3 3].

(** Ratings 5, 4. *)
Definition db_54 : DB :=
  mkDB [listing_1] [] [review 1 1 5; review 2 2 4].

(** Twenty reviews by twenty users: seventeen of one star, three of
    two stars; the mean is 23/20 = 1.15. *)
Definition db_20 : DB :=
  mkDB [listing_1] []
       (map (fun i => review i i (if i <=? 17 then 1 else 2))
            (map Z.of_nat (seq 1 20))).

Definition float_1_1 : spec_float := S754_finite false 4953959590107546 (-52).
Definition float_1_2 : spec_float := S754_finite false 5404319552844595 (-52).
Definition float_4_0 : spec_float := S754_finite false 4503599627370496 (-50).
Definition float_4_5 : spec_float := S754_finite false 5066549580791808 (-50).

Definition review_data : dict :=
  {[ "listing" := VListing 1; "rating" := VInt 4; "comment" := VStr "fine" ]}.

Definition booking_data (start end_ : date) : dict :=
  {[ "listing" := VListing 1; "start_date" := VDate start;
     "end_date" := VDate end_ ]}.

Definition listing_payload : dict :=
  {[ "title" := VStr "Sea view flat"; "description" := VStr "Two rooms";
     "location" := VStr "Mombasa"; "price_per_night" := VInt 450000 ]}.

(** A review payload that also names a user, which the serializer
    does not read. *)
Definition review_payload (stars : Z) : dict :=
  {[ "listing_id" := VInt 1; "rating" := VInt stars;
     "comment" := VStr "stayed here"; "user" := VUser 99 ]}.

(** The store after the listing is created and users 1 and 2 review
    it. *)
Definition db_after_two_reviews : DB :=
  mkDB [Listing.mk 1 "Sea view flat" "Two rooms" "Mombasa" 450000 0] []
       [review 10 1 4; review 11 2 5].

End Sample.

(** ** Deleting a user *)

(** [user.delete()] for the user with primary key [pk]: the rows of
    [auth.User] are not kept here, the rows that refer to them are. *)
Definition delete_user (pk : user_id) (db : DB) : outcome DB :=
  bs ← on_delete_apply Booking.user_on_delete
         (fun b => Booking.user b =? pk) (bookings db);
  rs ← on_delete_apply Review.user_on_delete
         (fun r => Review.user r =? pk) (reviews db);
  Ok (mkDB (listings db) bs rs).

(** ** Conditions on stores and rows *)

(** The listing with primary key [pk] is in the store. *)
Definition listing_exists (pk : uuid) (db : DB) : Prop :=
  exists l, l ∈ listings db /\ Listing.id l = pk.

(** What the create requests let into the store: a review with a rating
    from 1 to 5, a booking that does not end before it starts, each for
    a listing of the store. *)
Definition review_ok (db : DB) (r : Review.t) : Prop :=
  1 <= Review.rating r <= 5 /\ listing_exists (Review.listing r) db.

Definition booking_ok (db : DB) (b : Booking.t) : Prop :=
  ~ date_lt (Booking.end_date b) (Booking.start_date b)
  /\ listing_exists (Booking.listing b) db.

Definition rows_ok (db : DB) : Prop :=
  Forall (review_ok db) (reviews db) /\ Forall (booking_ok db) (bookings db).

(** [float(Decimal)] of [t] tenths. *)
Definition float_of_tenths (t : Z) : outcome spec_float :=
  Dec.to_float (DFinite false t (-1)).

(** The decimal [get_average_rating] converts to a float, for the sum
    [s] and the count [n] of the ratings. *)
Definition average_decimal (s n : Z) : outcome Decimal :=
  avg ← Float64.int_true_div s n;
  Dec.quantize_tenths_half_up (Dec.from_float avg).

(** The exact mean [s / n] lies halfway between two tenths. *)
Definition mean_is_tie (s n : Z) : bool :=
  (2 * 10 * s + n) mod (2 * n) =? 0.

(** For sum [s] and count [n]: the decimal is [t] tenths with
    1.0 <= t/10 <= 5.0, it converts to a float, and [t] is the exact
    mean in tenths, halves going up, or one less when the mean is a
    tie. *)
Definition average_within_tenth (s n : Z) : bool :=
  match average_decimal s n with
  | Ok (DFinite false t e) =>
      (e =? -1) && (10 <=? t) && (t <=? 50)
      && match float_of_tenths t with Ok _ => true | Raise _ => false end
      && ((t =? (2 * 10 * s + n) / (2 * n))
          || (mean_is_tie s n && (t =? (2 * 10 * s + n) / (2 * n) - 1)))
  | _ => false
  end.

(** [average_within_tenth] for every count from 1 to [bound] and every
    sum that ratings from 1 to 5 can have. *)
Definition average_within_tenth_upto (bound : nat) : bool :=
  forallb (fun n =>
             forallb (fun k => average_within_tenth (Z.of_nat n + Z.of_nat k)
                                                    (Z.of_nat n))
                     (seq 0 (4 * n + 1)))
          (seq 1 bound).

(** More sample data. *)
Module Cases.

Definition db_listing_only : DB := mkDB [Sample.listing_1] [] [].

Definition booking_payload (start end_ : date) : dict :=
  {[ "listing_id" := VInt 1; "start_date" := VDate start;
     "end_date" := VDate end_; "user" := VUser 99 ]}.

(** A second listing, reviewed once by user 1. *)
Definition listing_2 : Listing.t :=
  Listing.mk 2 "Garden room" "One room" "Nakuru" 120000 0.

Definition db_two_listings : DB :=
  mkDB [Sample.listing_1; listing_2]
       [Sample.booking 20 1; Booking.mk 21 2 2 (mkDate 2024 3 1) (mkDate 2024 3 4) 0]
       [Sample.review 10 1 4; Sample.review 11 2 5; Review.mk 12 2 1 3 "quiet" 0].

(** The review user 3 adds to [Sample.db_after_two_reviews], and the
    store it gives. *)
Definition review_12 : Review.t := Review.mk 12 1 3 4 "stayed here" 7.

Definition db_after_three_reviews : DB :=
  mkDB (listings Sample.db_after_two_reviews)
       (bookings Sample.db_after_two_reviews)
       (reviews Sample.db_after_two_reviews ++ [review_12]).

(** A booking by user 3 on the store with the one listing. *)
Definition booking_30 : Booking.t :=
  Booking.mk 30 1 3 (mkDate 2024 1 10) (mkDate 2024 1 12) 7.

Definition db_after_booking : DB :=
  mkDB (listings db_listing_only) (bookings db_listing_only ++ [booking_30])
       (reviews db_listing_only).

(** What is left of [db_two_listings] once listing 1 is deleted. *)
Definition db_listing_2_only : DB :=
  mkDB [listing_2]
       [Booking.mk 21 2 2 (mkDate 2024 3 1) (mkDate 2024 3 4) 0]
       [Review.mk 12 2 1 3 "quiet" 0].

End Cases.

(** * Properties *)

(** ** Helper lemmas *)

Lemma qs_exists_true {A : Type} (qs : list A) :
  qs_exists qs = true <-> exists x, x ∈ qs.
Proof.
  destruct qs as [|x qs]; simpl; split.
  - discriminate.
  - intros [x Hx]. inversion Hx.
  - intros _. exists x. left.
  - reflexivity.
Qed.

Lemma qs_exists_false {A : Type} (qs : list A) :
  qs_exists qs = false <-> qs = [].
Proof. destruct qs; simpl; split; congruence. Qed.

Lemma date_ltb_lt (a b : date) : date_ltb a b = true <-> date_lt a b.
Proof.
  unfold date_ltb, date_lt.
  rewrite !orb_true_iff, !andb_true_iff, !orb_true_iff, !andb_true_iff.
  rewrite !Z.ltb_lt, !Z.eqb_eq. reflexivity.
Qed.

Lemma date_lt_irrefl (a : date) : ~ date_lt a a.
Proof. unfold date_lt. lia. Qed.

(** ** Rating bounds *)

(** C4: [validate_rating] raises "Rating must be between 1 and 5."
    exactly for the ratings below 1 or above 5, and returns every rating
    from 1 to 5 unchanged. *)
Theorem validate_rating_range (r : Z) :
  (ReviewSerializer.validate_rating r
     = Raise (ValidationError "Rating must be between 1 and 5.")
   <-> r < 1 \/ r > 5)
  /\ (ReviewSerializer.validate_rating r = Ok r <-> 1 <= r <= 5).
Proof.
  unfold ReviewSerializer.validate_rating.
  destruct (r <? 1) eqn:Hlo; destruct (r >? 5) eqn:Hhi; simpl;
    rewrite ?Z.ltb_lt, ?Z.ltb_ge in Hlo; rewrite Z.gtb_ltb in Hhi;
    rewrite ?Z.ltb_lt, ?Z.ltb_ge in Hhi;
    (split; split; first [ discriminate | reflexivity | lia | intros; lia
                         | intros; exfalso; lia ]).
Qed.

(** The two ratings next to the range are refused. *)
Lemma validate_rating_0_6 :
  ReviewSerializer.validate_rating 0
    = Raise (ValidationError "Rating must be between 1 and 5.")
  /\ ReviewSerializer.validate_rating 6
    = Raise (ValidationError "Rating must be between 1 and 5.").
Proof. split; reflexivity. Qed.

(** ** Rating labels *)

(** C9: the label of a review is "Excellent", "Good", "Average", "Poor"
    or "Terrible" for the ratings 5, 4, 3, 2, 1 and the empty string
    for every other rating. *)
Theorem get_rating_label_mapping (obj : Review.t) :
  (Review.rating obj = 5 -> ReviewSerializer.get_rating_label obj = "Excellent")
  /\ (Review.rating obj = 4 -> ReviewSerializer.get_rating_label obj = "Good")
  /\ (Review.rating obj = 3 -> ReviewSerializer.get_rating_label obj = "Average")
  /\ (Review.rating obj = 2 -> ReviewSerializer.get_rating_label obj = "Poor")
  /\ (Review.rating obj = 1 -> ReviewSerializer.get_rating_label obj = "Terrible")
  /\ (Review.rating obj < 1 \/ Review.rating obj > 5 ->
      ReviewSerializer.get_rating_label obj = "").
Proof.
  unfold ReviewSerializer.get_rating_label.
  repeat split; intros H; try (rewrite H; reflexivity).
  unfold ReviewSerializer.labels.
  rewrite !lookup_insert_ne by lia.
  rewrite lookup_singleton_ne by lia.
  reflexivity.
Qed.

(** ** Booking dates *)

Lemma booking_validate_dates_eq (s e : date) (data : dict) :
  data !! "start_date" = Some (VDate s) ->
  data !! "end_date" = Some (VDate e) ->
  BookingSerializer.validate data
  = if date_ltb e s
    then Raise (ValidationError "End date must be after start date.")
    else Ok data.
Proof.
  intros Hs He. unfold BookingSerializer.validate, dict_get.
  rewrite Hs, He. simpl. destruct (date_ltb e s); reflexivity.
Qed.

(** C3: with both dates present, the booking validator raises "End date
    must be after start date." exactly when the end date is before the
    start date; otherwise it returns the data, in particular when the
    two dates are equal. *)
Theorem booking_validate_end_before_start (s e : date) (data : dict) :
  data !! "start_date" = Some (VDate s) ->
  data !! "end_date" = Some (VDate e) ->
  (BookingSerializer.validate data
     = Raise (ValidationError "End date must be after start date.")
   <-> date_lt e s)
  /\ (BookingSerializer.validate data = Ok data <-> ~ date_lt e s)
  /\ (e = s -> BookingSerializer.validate data = Ok data).
Proof.
  intros Hs He. rewrite (booking_validate_dates_eq s e data Hs He).
  destruct (date_ltb e s) eqn:Hlt.
  - apply date_ltb_lt in Hlt. repeat split; try done.
    intros ->. exfalso. exact (date_lt_irrefl _ Hlt).
  - assert (Hn : ~ date_lt e s).
    { intros H. apply date_ltb_lt in H. congruence. }
    repeat split; try done.
Qed.

Lemma booking_validate_end_before_start_witness :
  BookingSerializer.validate
    (Sample.booking_data (mkDate 2024 1 10) (mkDate 2024 1 9))
  = Raise (ValidationError "End date must be after start date.")
  /\ BookingSerializer.validate
       (Sample.booking_data (mkDate 2024 1 10) (mkDate 2024 1 10))
     = Ok (Sample.booking_data (mkDate 2024 1 10) (mkDate 2024 1 10)).
Proof.
  split.
  - apply (booking_validate_end_before_start
             (mkDate 2024 1 10) (mkDate 2024 1 9)
             (Sample.booking_data (mkDate 2024 1 10) (mkDate 2024 1 9)));
      [ reflexivity | reflexivity | ].
    right. simpl. split; [ reflexivity | ]. right. split; [ reflexivity | lia ].
  - apply (booking_validate_end_before_start
             (mkDate 2024 1 10) (mkDate 2024 1 10)
             (Sample.booking_data (mkDate 2024 1 10) (mkDate 2024 1 10)));
      [ reflexivity | reflexivity | reflexivity ].
Defined.

(** C10: when either date is absent from the data, the booking
    validator returns the data without comparing; it raises only when
    both dates are present. *)
Theorem booking_validate_absent_date (data : dict) :
  (data !! "start_date" = None \/ data !! "end_date" = None ->
   BookingSerializer.validate data = Ok data)
  /\ (forall e, BookingSerializer.validate data = Raise e ->
      is_Some (data !! "start_date") /\ is_Some (data !! "end_date")).
Proof.
  unfold BookingSerializer.validate, dict_get. split.
  - intros [H | H]; rewrite H; simpl; [ reflexivity | ].
    destruct (truthy (default VNone (data !! "start_date"))); reflexivity.
  - intros e.
    destruct (data !! "start_date") as [s|]; simpl; [ | discriminate ].
    destruct (data !! "end_date") as [e'|]; simpl.
    + intros _. split; eexists; reflexivity.
    + destruct (truthy s); discriminate.
Qed.

Lemma booking_validate_absent_date_witness :
  BookingSerializer.validate {[ "start_date" := VDate (mkDate 2024 1 10) ]}
  = Ok {[ "start_date" := VDate (mkDate 2024 1 10) ]}.
Proof.
  apply (proj1 (booking_validate_absent_date
                  {[ "start_date" := VDate (mkDate 2024 1 10) ]})).
  right. reflexivity.
Defined.

(** ** Duplicate reviews *)

Lemma review_filter_elem (u : user_id) (l : uuid) (db : DB) (r : Review.t) :
  r ∈ Review_objects_filter u (VListing l) db
  <-> r ∈ reviews db /\ Review.user r = u /\ Review.listing r = l.
Proof.
  unfold Review_objects_filter. rewrite list_elem_of_filter.
  split.
  - intros [[Hu Hl] Hin]. inversion Hl. auto.
  - intros (Hin & Hu & Hl). subst. auto.
Qed.

Lemma review_validate_eq (u : user_id) (data : dict) (db : DB) :
  ReviewSerializer.validate u data db
  = if qs_exists (Review_objects_filter u (dict_get data "listing") db)
    then Raise (ValidationError "You have already reviewed this listing.")
    else Ok data.
Proof. reflexivity. Qed.

(** C2: for a user [u] and the data of a review for listing [l], the
    review validator raises "You have already reviewed this listing."
    exactly when the store holds a review by [u] for [l]; otherwise it
    returns the data. *)
Theorem review_validate_duplicate (u : user_id) (l : uuid) (data : dict) (db : DB) :
  data !! "listing" = Some (VListing l) ->
  (ReviewSerializer.validate u data db
     = Raise (ValidationError "You have already reviewed this listing.")
   <-> exists r, r ∈ reviews db /\ Review.user r = u /\ Review.listing r = l)
  /\ (ReviewSerializer.validate u data db = Ok data
      <-> ~ exists r, r ∈ reviews db /\ Review.user r = u /\ Review.listing r = l).
Proof.
  intros Hl. rewrite review_validate_eq. unfold dict_get. rewrite Hl. simpl.
  destruct (qs_exists (Review_objects_filter u (VListing l) db)) eqn:Hex.
  - apply qs_exists_true in Hex. destruct Hex as [r Hr].
    apply review_filter_elem in Hr.
    repeat split; try done; eauto.
    intros Hn. exfalso. apply Hn. eauto.
  - apply qs_exists_false in Hex.
    assert (Hn : ~ exists r, r ∈ reviews db /\ Review.user r = u /\ Review.listing r = l).
    { intros [r Hr]. apply review_filter_elem in Hr. rewrite Hex in Hr.
      inversion Hr. }
    repeat split; try done.
Qed.

Lemma review_validate_duplicate_witness :
  ReviewSerializer.validate 2 Sample.review_data Sample.db_54
  = Raise (ValidationError "You have already reviewed this listing.").
Proof.
  apply (review_validate_duplicate 2 1 Sample.review_data Sample.db_54);
    [ reflexivity | ].
  exists (Sample.review 2 2 4). split; [ | split; reflexivity ].
  right. left.
Defined.

(** A user without a review of the listing passes the check. *)
Lemma review_validate_first_review :
  ReviewSerializer.validate 3 Sample.review_data Sample.db_54
  = Ok Sample.review_data.
Proof. vm_compute. reflexivity. Qed.

(** ** The stored user *)

Lemma review_create_inv (u : user_id) (data : dict) (new_id : uuid) (now : Z)
    (db : DB) (row : Review.t) (db' : DB) :
  ReviewSerializer.create u data new_id now db = Ok (row, db') ->
  exists l r c,
    data !! "listing" = Some (VListing l)
    /\ row = Review.mk new_id l u r c now
    /\ db' = mkDB (listings db) (bookings db) (reviews db ++ [row]).
Proof.
  unfold ReviewSerializer.create, Review_objects_create.
  rewrite lookup_insert_eq. rewrite !lookup_insert_ne by done.
  destruct (data !! "listing") as [[| | | | | |l]|]; try discriminate.
  destruct (data !! "rating") as [[|r| | | | |]|]; try discriminate.
  destruct (data !! "comment") as [[| |c| | | |]|]; try discriminate.
  intros H. inversion H. subst. eauto 10.
Qed.

Lemma booking_create_inv (u : user_id) (data : dict) (new_id : uuid) (now : Z)
    (db : DB) (row : Booking.t) (db' : DB) :
  BookingSerializer.create u data new_id now db = Ok (row, db') ->
  exists l s e,
    row = Booking.mk new_id l u s e now
    /\ db' = mkDB (listings db) (bookings db ++ [row]) (reviews db).
Proof.
  unfold BookingSerializer.create, Booking_objects_create.
  rewrite lookup_insert_eq. rewrite !lookup_insert_ne by done.
  destruct (data !! "listing") as [[| | | | | |l]|]; try discriminate.
  destruct (data !! "start_date") as [[| | | |s| |]|]; try discriminate.
  destruct (data !! "end_date") as [[| | | |e| |]|]; try discriminate.
  intros H. inversion H. subst. eauto 10.
Qed.

(** C5: a successful create of a review or of a booking inserts one row
    whose user is the requester of the request context, whatever the
    data held under "user" before. *)
Theorem create_stores_request_user (u : user_id) (data : dict)
    (new_id : uuid) (now : Z) (db : DB) :
  (forall row db',
     ReviewSerializer.create u data new_id now db = Ok (row, db') ->
     Review.user row = u /\ reviews db' = reviews db ++ [row])
  /\ (forall row db',
        BookingSerializer.create u data new_id now db = Ok (row, db') ->
        Booking.user row = u /\ bookings db' = bookings db ++ [row]).
Proof.
  split; intros row db' H.
  - apply review_create_inv in H. destruct H as (l & r & c & _ & -> & ->).
    split; reflexivity.
  - apply booking_create_inv in H. destruct H as (l & s & e & -> & ->).
    split; reflexivity.
Qed.

Lemma create_stores_request_user_witness :
  (let row := Review.mk 9 1 3 4 "fine" 50 in
   Review.user row = 3
   /\ reviews (mkDB (listings Sample.db_54) (bookings Sample.db_54)
                    (reviews Sample.db_54 ++ [row]))
      = reviews Sample.db_54 ++ [row])
  /\ (let row := Booking.mk 9 1 3 (mkDate 2024 1 10) (mkDate 2024 1 12) 50 in
      Booking.user row = 3
      /\ bookings (mkDB (listings Sample.db_54) (bookings Sample.db_54 ++ [row])
                        (reviews Sample.db_54))
         = bookings Sample.db_54 ++ [row]).
Proof.
  split.
  - apply (proj1 (create_stores_request_user 3
                    (<["user" := VUser 8]> Sample.review_data) 9 50 Sample.db_54)).
    reflexivity.
  - apply (proj2 (create_stores_request_user 3
                    (<["user" := VUser 8]>
                       (Sample.booking_data (mkDate 2024 1 10) (mkDate 2024 1 12)))
                    9 50 Sample.db_54)).
    reflexivity.
Defined.

(** ** Average rating *)

Lemma get_average_rating_eq (obj : Listing.t) (db : DB) :
  ListingSerializer.get_average_rating obj db
  = match map Review.rating (Listing_reviews obj db) with
    | [] => Ok VNone
    | ratings =>
        avg ← Float64.int_true_div (py_sum ratings) (Z.of_nat (length ratings));
        q ← Dec.quantize_tenths_half_up (Dec.from_float avg);
        f ← Dec.to_float q;
        Ok (VFloat f)
    end.
Proof.
  unfold ListingSerializer.get_average_rating, qs_count.
  destruct (Listing_reviews obj db) as [|r rs] eqn:E; simpl; [ reflexivity | ].
  rewrite length_map. reflexivity.
Qed.

(** A listing without reviews has no average; a listing with reviews
    never serializes to [None]. *)
Lemma get_average_rating_none (obj : Listing.t) (db : DB) :
  ListingSerializer.get_average_rating obj db = Ok VNone
  <-> Listing_reviews obj db = [].
Proof.
  unfold ListingSerializer.get_average_rating.
  destruct (Listing_reviews obj db) as [|r rs]; simpl; split; try done.
  destruct (Float64.int_true_div _ _) as [avg|]; simpl; [ | discriminate ].
  destruct (Dec.quantize_tenths_half_up _) as [q|]; simpl; [ | discriminate ].
  destruct (Dec.to_float q); simpl; discriminate.
Qed.

(** C8: ratings 4, 5, 3 serialize to the average 4.0, ratings 5, 4 to
    4.5, and a listing without reviews to [None] with a count of 0. *)
Theorem average_rating_examples (obj : Listing.t) (db : DB) :
  (map Review.rating (Listing_reviews obj db) = [4; 5; 3] ->
   ListingSerializer.get_average_rating obj db = Ok (VFloat Sample.float_4_0))
  /\ (map Review.rating (Listing_reviews obj db) = [5; 4] ->
      ListingSerializer.get_average_rating obj db = Ok (VFloat Sample.float_4_5))
  /\ (Listing_reviews obj db = [] ->
      ListingSerializer.get_average_rating obj db = Ok VNone
      /\ ListingSerializer.reviews_count obj db = 0).
Proof.
  repeat split.
  - intros H. rewrite get_average_rating_eq, H. vm_compute. reflexivity.
  - intros H. rewrite get_average_rating_eq, H. vm_compute. reflexivity.
  - apply get_average_rating_none. assumption.
  - unfold ListingSerializer.reviews_count. rewrite H. reflexivity.
Qed.

Lemma average_rating_examples_witness :
  ListingSerializer.get_average_rating Sample.listing_1 Sample.db_453
  = Ok (VFloat Sample.float_4_0)
  /\ ListingSerializer.get_average_rating Sample.listing_1 Sample.db_54
     = Ok (VFloat Sample.float_4_5)
  /\ (ListingSerializer.get_average_rating Sample.listing_1 empty_db = Ok VNone
      /\ ListingSerializer.reviews_count Sample.listing_1 empty_db = 0).
Proof.
  split; [ | split ].
  - apply (proj1 (average_rating_examples Sample.listing_1 Sample.db_453)).
    reflexivity.
  - apply (proj1 (proj2 (average_rating_examples Sample.listing_1 Sample.db_54))).
    reflexivity.
  - apply (proj2 (proj2 (average_rating_examples Sample.listing_1 empty_db))).
    reflexivity.
Defined.

(** C1: on the twenty reviews of [Sample.db_20] the exact mean is 1.15,
    which in tenths, halves going up, is 12 (the float 1.2); the
    serializer divides in binary floating point first, gets the float
    just below 1.15, and returns 1.1. *)
Theorem get_average_rating_binary_mean :
  py_sum (map Review.rating (Listing_reviews Sample.listing_1 Sample.db_20)) = 23
  /\ qs_count (Listing_reviews Sample.listing_1 Sample.db_20) = 20
  /\ mean_tenths_half_up
       (map Review.rating (Listing_reviews Sample.listing_1 Sample.db_20)) = 12
  /\ spec_average_rating
       (map Review.rating (Listing_reviews Sample.listing_1 Sample.db_20))
     = Ok (VFloat Sample.float_1_2)
  /\ ListingSerializer.get_average_rating Sample.listing_1 Sample.db_20
     = Ok (VFloat Sample.float_1_1).
Proof. repeat split; vm_compute; reflexivity. Qed.

(** ** Cascading delete *)

Lemma elem_of_bool_filter {A : Type} (p : A -> bool) (xs : list A) (x : A) :
  x ∈ List.filter p xs <-> x ∈ xs /\ p x = true.
Proof. rewrite !list_elem_of_In. apply filter_In. Qed.

(** C7: deleting a listing succeeds and leaves exactly the bookings and
    reviews of the other listings, so that no remaining row refers to
    the deleted listing and its review count is 0. *)
Theorem delete_listing_cascades (pk : uuid) (db : DB) :
  exists db',
    delete_listing pk db = Ok db'
    /\ (forall b, b ∈ bookings db' <-> b ∈ bookings db /\ Booking.listing b <> pk)
    /\ (forall r, r ∈ reviews db' <-> r ∈ reviews db /\ Review.listing r <> pk)
    /\ (forall l, l ∈ listings db' <-> l ∈ listings db /\ Listing.id l <> pk)
    /\ (forall obj, Listing.id obj = pk ->
        Listing_bookings obj db' = []
        /\ Listing_reviews obj db' = []
        /\ ListingSerializer.reviews_count obj db' = 0).
Proof.
  eexists. split; [ reflexivity | ]. simpl.
  assert (Hb : forall b,
             b ∈ List.filter (fun b => negb (Booking.listing b =? pk)) (bookings db)
             <-> b ∈ bookings db /\ Booking.listing b <> pk).
  { intros b. rewrite elem_of_bool_filter, negb_true_iff, Z.eqb_neq. reflexivity. }
  assert (Hr : forall r,
             r ∈ List.filter (fun r => negb (Review.listing r =? pk)) (reviews db)
             <-> r ∈ reviews db /\ Review.listing r <> pk).
  { intros r. rewrite elem_of_bool_filter, negb_true_iff, Z.eqb_neq. reflexivity. }
  split; [ exact Hb | ]. split; [ exact Hr | ]. split.
  - intros l. rewrite elem_of_bool_filter, negb_true_iff, Z.eqb_neq. reflexivity.
  - intros obj Hpk.
    assert (Hbs : Listing_bookings obj
                    (mkDB (List.filter (fun l => negb (Listing.id l =? pk)) (listings db))
                          (List.filter (fun b => negb (Booking.listing b =? pk)) (bookings db))
                          (List.filter (fun r => negb (Review.listing r =? pk)) (reviews db)))
                  = []).
    { unfold Listing_bookings. simpl. apply elem_of_nil_inv. intros b Hin.
      apply list_elem_of_filter in Hin. destruct Hin as [Heq Hin].
      apply Hb in Hin. destruct Hin as [_ Hne]. congruence. }
    assert (Hrs : Listing_reviews obj
                    (mkDB (List.filter (fun l => negb (Listing.id l =? pk)) (listings db))
                          (List.filter (fun b => negb (Booking.listing b =? pk)) (bookings db))
                          (List.filter (fun r => negb (Review.listing r =? pk)) (reviews db)))
                  = []).
    { unfold Listing_reviews. simpl. apply elem_of_nil_inv. intros r Hin.
      apply list_elem_of_filter in Hin. destruct Hin as [Heq Hin].
      apply Hr in Hin. destruct Hin as [_ Hne]. congruence. }
    split; [ exact Hbs | ]. split; [ exact Hrs | ].
    unfold ListingSerializer.reviews_count. rewrite Hrs. reflexivity.
Qed.

(** The listing of [Sample.db_453] goes with its booking and its three
    reviews. *)
Lemma delete_listing_sample :
  delete_listing 1 Sample.db_453 = Ok empty_db.
Proof. reflexivity. Qed.

(** ** One review per user and listing *)

Lemma bind_Ok_inv {A B : Type} (m : outcome A) (k : A -> outcome B) (b : B) :
  (m ≫= k) = Ok b -> exists a, m = Ok a /\ k a = Ok b.
Proof. destruct m as [a|e]; simpl; [ eauto | discriminate ]. Qed.

Lemma review_validate_Ok_inv (u : user_id) (data data' : dict) (db : DB) :
  ReviewSerializer.validate u data db = Ok data' ->
  data' = data /\ Review_objects_filter u (dict_get data "listing") db = [].
Proof.
  rewrite review_validate_eq.
  destruct (qs_exists _) eqn:Hex; [ discriminate | ].
  apply qs_exists_false in Hex. intros H. inversion H; subst.
  split; [ reflexivity | exact Hex ].
Qed.

(** A review that passes the validator and is then created against the
    same store has a pair of user and listing that no stored review
    has. *)
Lemma create_review_fresh_key (u : user_id) (payload : dict) (new_id : uuid)
    (now : Z) (db : DB) (row : Review.t) (db' : DB) :
  Api.create_review u payload new_id now db = Ok (row, db') ->
  (review_key row ∉ (review_key <$> reviews db))
  /\ reviews db' = reviews db ++ [row].
Proof.
  unfold Api.create_review. intros H.
  apply bind_Ok_inv in H. destruct H as (data & _ & H).
  apply bind_Ok_inv in H. destruct H as (data' & Hv & Hc).
  apply review_validate_Ok_inv in Hv. destruct Hv as [-> Hnone].
  apply review_create_inv in Hc. destruct Hc as (l & r & c & Hl & -> & ->).
  split; [ | reflexivity ].
  unfold dict_get in Hnone. rewrite Hl in Hnone. simpl in Hnone.
  intros Hin. apply list_elem_of_fmap in Hin. destruct Hin as (r' & Hkey & Hin).
  assert (Hr' : r' ∈ Review_objects_filter u (VListing l) db).
  { apply review_filter_elem. unfold review_key in Hkey. simpl in Hkey.
    inversion Hkey. auto. }
  rewrite Hnone in Hr'. inversion Hr'.
Qed.

Lemma handle_preserves_unique_reviews (req : Api.request) (new_id : uuid)
    (now : Z) (db db' : DB) :
  unique_reviews db ->
  Api.handle req new_id now db = Ok db' ->
  unique_reviews db'.
Proof.
  unfold unique_reviews. intros Hinv H. destruct req as [p | u p | u p]; simpl in H.
  - apply bind_Ok_inv in H. destruct H as ([row db1] & Hc & H).
    inversion H; subst db1. unfold Api.create_listing in Hc.
    repeat (apply bind_Ok_inv in Hc; destruct Hc as (? & _ & Hc)).
    inversion Hc. exact Hinv.
  - apply bind_Ok_inv in H. destruct H as ([row db1] & Hc & H).
    inversion H; subst db1. unfold Api.create_booking in Hc.
    repeat (apply bind_Ok_inv in Hc; destruct Hc as (? & _ & Hc)).
    apply booking_create_inv in Hc. destruct Hc as (l & s & e & -> & ->).
    exact Hinv.
  - apply bind_Ok_inv in H. destruct H as ([row db1] & Hc & H).
    inversion H; subst db1.
    apply create_review_fresh_key in Hc. destruct Hc as [Hfresh ->].
    rewrite fmap_app. apply NoDup_app. split; [ exact Hinv | ]. split.
    + intros k Hk Hk'. simpl in Hk'. apply list_elem_of_singleton in Hk'.
      subst k. exact (Hfresh Hk).
    + simpl. apply NoDup_singleton.
Qed.

Lemma reachable_unique_reviews (db : DB) :
  Api.reachable db -> unique_reviews db.
Proof.
  induction 1 as [| db db' req new_id now _ IH Hstep].
  - unfold unique_reviews. simpl. apply NoDup_nil_2.
  - exact (handle_preserves_unique_reviews req new_id now db db' IH Hstep).
Qed.

Lemma unique_keys_at_most_one (u : user_id) (l : uuid) (rs : list Review.t) :
  NoDup (review_key <$> rs) ->
  (length (filter (fun r => Review.user r = u /\ Review.listing r = l) rs) <= 1)%nat.
Proof.
  induction rs as [|r rs IH]; intros Hnd.
  - rewrite filter_nil. simpl. lia.
  - rewrite fmap_cons in Hnd. apply NoDup_cons in Hnd. destruct Hnd as [Hnotin Hnd].
    rewrite filter_cons. destruct (decide _) as [[Hu Hl]|Hne].
    + assert (Hnil : filter (fun r => Review.user r = u /\ Review.listing r = l) rs = []).
      { apply elem_of_nil_inv. intros r' Hin.
        apply list_elem_of_filter in Hin. destruct Hin as [[Hu' Hl'] Hin].
        apply Hnotin. apply list_elem_of_fmap. exists r'. split; [ | exact Hin ].
        unfold review_key. congruence. }
      rewrite Hnil. simpl. lia.
    + apply IH. exact Hnd.
Qed.

(** C6: in every store reached by create requests, handled one after
    the other and each validated before its insert, a user has at most
    one review of a listing. *)
Theorem one_review_per_user_and_listing (db : DB) :
  Api.reachable db ->
  forall (u : user_id) (l : uuid), (length (reviews_by_for u l db) <= 1)%nat.
Proof.
  intros Hreach u l. unfold reviews_by_for.
  apply unique_keys_at_most_one. apply reachable_unique_reviews. exact Hreach.
Qed.

Lemma reachable_sample : Api.reachable Sample.db_after_two_reviews.
Proof.
  apply (Api.reachable_step
           (mkDB [Sample.listing_1] [] [Sample.review 10 1 4])
           Sample.db_after_two_reviews
           (Api.CreateReview 2 (Sample.review_payload 5)) 11 0);
    [ | vm_compute; reflexivity ].
  apply (Api.reachable_step
           (mkDB [Sample.listing_1] [] [])
           (mkDB [Sample.listing_1] [] [Sample.review 10 1 4])
           (Api.CreateReview 1 (Sample.review_payload 4)) 10 0);
    [ | vm_compute; reflexivity ].
  apply (Api.reachable_step
           empty_db (mkDB [Sample.listing_1] [] [])
           (Api.CreateListing Sample.listing_payload) 1 0);
    [ | vm_compute; reflexivity ].
  apply Api.reachable_empty.
Defined.

Lemma one_review_per_user_and_listing_witness :
  (length (reviews_by_for 1 1 Sample.db_after_two_reviews) <= 1)%nat.
Proof.
  exact (one_review_per_user_and_listing
           Sample.db_after_two_reviews reachable_sample 1 1).
Defined.

(** A second review by user 1 for the same listing is refused, and so
    is a review with six stars. *)
Lemma create_review_twice_refused :
  Api.create_review 1 (Sample.review_payload 2) 12 0 Sample.db_after_two_reviews
  = Raise (ValidationError "You have already reviewed this listing.")
  /\ Api.create_review 3 (Sample.review_payload 6) 12 0 Sample.db_after_two_reviews
     = Raise (ValidationError "Rating must be between 1 and 5.").
Proof. split; vm_compute; reflexivity. Qed.

(** * Further properties of the code *)

(** ** What a create request needs and gives *)

Lemma create_on_fields (u : user_id) (pk : uuid) (r : Z) (c : string)
    (new_id : uuid) (now : Z) (db : DB) :
  ReviewSerializer.create u
    {[ "listing" := VListing pk; "rating" := VInt r; "comment" := VStr c ]}
    new_id now db
  = Ok (Review.mk new_id pk u r c now,
        mkDB (listings db) (bookings db)
             (reviews db ++ [Review.mk new_id pk u r c now])).
Proof. reflexivity. Qed.

Lemma existsb_listing (pk : uuid) (db : DB) :
  existsb (fun l => Listing.id l =? pk) (listings db) = true <-> listing_exists pk db.
Proof.
  unfold listing_exists. rewrite existsb_exists. split.
  - intros (l & Hin & Heq). exists l. rewrite list_elem_of_In, <- Z.eqb_eq. auto.
  - intros (l & Hin & Heq). exists l. rewrite <- list_elem_of_In, Z.eqb_eq. auto.
Qed.

Lemma review_fields_Ok (p : dict) (db : DB) (data : dict) :
  Api.review_fields p db = Ok data
  <-> exists pk r c,
        p !! "listing_id" = Some (VInt pk)
        /\ listing_exists pk db
        /\ p !! "rating" = Some (VInt r) /\ 1 <= r <= 5
        /\ p !! "comment" = Some (VStr c)
        /\ data = {[ "listing" := VListing pk; "rating" := VInt r;
                     "comment" := VStr c ]}.
Proof.
  unfold Api.review_fields, Api.related_listing, Api.integer_field,
    Api.char_field. split.
  - intros H.
    destruct (p !! "listing_id") as [[|pk| | | | |]|]; try discriminate.
    destruct (existsb _ _) eqn:Hex; try discriminate. simpl in H.
    destruct (p !! "rating") as [[|r| | | | |]|]; try discriminate. simpl in H.
    destruct (ReviewSerializer.validate_rating r) as [r'|] eqn:Hr; try discriminate.
    simpl in H.
    destruct (p !! "comment") as [[| |c| | | |]|]; try discriminate. simpl in H.
    inversion H; subst.
    assert (Hr' : r' = r /\ 1 <= r <= 5).
    { unfold ReviewSerializer.validate_rating in Hr.
      destruct ((r <? 1) || (r >? 5)) eqn:Hb; [ discriminate | ].
      inversion Hr; subst. apply orb_false_iff in Hb. destruct Hb as [H1 H2].
      rewrite Z.gtb_ltb in H2. apply Z.ltb_ge in H1, H2. lia. }
    destruct Hr' as [-> Hrange].
    exists pk, r, c. apply existsb_listing in Hex. auto 10.
  - intros (pk & r & c & Hl & Hex & Hr & Hrange & Hc & ->).
    rewrite Hl, Hr, Hc. apply existsb_listing in Hex. rewrite Hex. simpl.
    unfold ReviewSerializer.validate_rating.
    assert (Hb : (r <? 1) || (r >? 5) = false).
    { apply orb_false_iff. rewrite Z.gtb_ltb. split; apply Z.ltb_ge; lia. }
    rewrite Hb. reflexivity.
Qed.

Lemma review_filter_by_for (u : user_id) (pk : uuid) (db : DB) :
  Review_objects_filter u (VListing pk) db = reviews_by_for u pk db.
Proof.
  unfold Review_objects_filter, reviews_by_for. apply list_filter_iff.
  intros r. split.
  - intros [Hu Hl]. inversion Hl. auto.
  - intros [Hu Hl]. subst. auto.
Qed.

Lemma create_review_Ok (u : user_id) (p : dict) (new_id : uuid) (now : Z)
    (db : DB) (row : Review.t) (db' : DB) :
  Api.create_review u p new_id now db = Ok (row, db')
  <-> exists pk r c,
        p !! "listing_id" = Some (VInt pk)
        /\ listing_exists pk db
        /\ p !! "rating" = Some (VInt r) /\ 1 <= r <= 5
        /\ p !! "comment" = Some (VStr c)
        /\ reviews_by_for u pk db = []
        /\ row = Review.mk new_id pk u r c now
        /\ db' = mkDB (listings db) (bookings db) (reviews db ++ [row]).
Proof.
  unfold Api.create_review. split.
  - intros H. apply bind_Ok_inv in H. destruct H as (data & Hf & H).
    apply review_fields_Ok in Hf.
    destruct Hf as (pk & r & c & Hl & Hex & Hr & Hrange & Hc & ->).
    apply bind_Ok_inv in H. destruct H as (data' & Hv & H).
    apply review_validate_Ok_inv in Hv. destruct Hv as [-> Hnone].
    change (dict_get _ "listing") with (VListing pk) in Hnone.
    rewrite review_filter_by_for in Hnone.
    rewrite create_on_fields in H. inversion H; subst.
    exists pk, r, c. auto 10.
  - intros (pk & r & c & Hl & Hex & Hr & Hrange & Hc & Hnone & -> & ->).
    assert (Hf : Api.review_fields p db
                 = Ok {[ "listing" := VListing pk; "rating" := VInt r;
                         "comment" := VStr c ]}).
    { apply review_fields_Ok. exists pk, r, c. auto 10. }
    rewrite Hf. simpl. rewrite review_validate_eq.
    change (dict_get _ "listing") with (VListing pk).
    rewrite review_filter_by_for, Hnone. simpl.
    apply create_on_fields.
Qed.

Lemma booking_create_on_fields (u : user_id) (pk : uuid) (s e : date)
    (new_id : uuid) (now : Z) (db : DB) :
  BookingSerializer.create u
    {[ "listing" := VListing pk; "start_date" := VDate s; "end_date" := VDate e ]}
    new_id now db
  = Ok (Booking.mk new_id pk u s e now,
        mkDB (listings db) (bookings db ++ [Booking.mk new_id pk u s e now])
             (reviews db)).
Proof. reflexivity. Qed.

Lemma booking_fields_Ok (p : dict) (db : DB) (data : dict) :
  Api.booking_fields p db = Ok data
  <-> exists pk s e,
        p !! "listing_id" = Some (VInt pk)
        /\ listing_exists pk db
        /\ p !! "start_date" = Some (VDate s)
        /\ p !! "end_date" = Some (VDate e)
        /\ data = {[ "listing" := VListing pk; "start_date" := VDate s;
                     "end_date" := VDate e ]}.
Proof.
  unfold Api.booking_fields, Api.related_listing, Api.date_field. split.
  - intros H.
    destruct (p !! "listing_id") as [[|pk| | | | |]|]; try discriminate.
    destruct (existsb _ _) eqn:Hex; try discriminate. simpl in H.
    destruct (p !! "start_date") as [[| | | |s| |]|]; try discriminate. simpl in H.
    destruct (p !! "end_date") as [[| | | |e| |]|]; try discriminate. simpl in H.
    inversion H; subst. apply existsb_listing in Hex.
    exists pk, s, e. auto 10.
  - intros (pk & s & e & Hl & Hex & Hs & He & ->).
    rewrite Hl, Hs, He. apply existsb_listing in Hex. rewrite Hex. reflexivity.
Qed.

Lemma create_booking_Ok (u : user_id) (p : dict) (new_id : uuid) (now : Z)
    (db : DB) (row : Booking.t) (db' : DB) :
  Api.create_booking u p new_id now db = Ok (row, db')
  <-> exists pk s e,
        p !! "listing_id" = Some (VInt pk)
        /\ listing_exists pk db
        /\ p !! "start_date" = Some (VDate s)
        /\ p !! "end_date" = Some (VDate e)
        /\ ~ date_lt e s
        /\ row = Booking.mk new_id pk u s e now
        /\ db' = mkDB (listings db) (bookings db ++ [row]) (reviews db).
Proof.
  unfold Api.create_booking. split.
  - intros H. apply bind_Ok_inv in H. destruct H as (data & Hf & H).
    apply booking_fields_Ok in Hf.
    destruct Hf as (pk & s & e & Hl & Hex & Hs & He & ->).
    apply bind_Ok_inv in H. destruct H as (data' & Hv & H).
    rewrite (booking_validate_dates_eq s e) in Hv by reflexivity.
    destruct (date_ltb e s) eqn:Hlt; [ discriminate | ].
    inversion Hv; subst data'.
    rewrite booking_create_on_fields in H. inversion H; subst.
    exists pk, s, e. repeat split; auto.
    intros Hd. apply date_ltb_lt in Hd. congruence.
  - intros (pk & s & e & Hl & Hex & Hs & He & Hn & -> & ->).
    assert (Hf : Api.booking_fields p db
                 = Ok {[ "listing" := VListing pk; "start_date" := VDate s;
                         "end_date" := VDate e ]}).
    { apply booking_fields_Ok. exists pk, s, e. auto 10. }
    rewrite Hf. simpl.
    rewrite (booking_validate_dates_eq s e) by reflexivity.
    destruct (date_ltb e s) eqn:Hlt.
    + apply date_ltb_lt in Hlt. contradiction.
    + simpl. apply booking_create_on_fields.
Qed.

(** ** Deleting a user *)

(** X1: deleting a user succeeds, keeps every listing and leaves exactly
    the bookings and reviews of the other users, so that the user has
    no review of any listing afterwards. *)
Theorem delete_user_cascades (pk : user_id) (db : DB) :
  exists db',
    delete_user pk db = Ok db'
    /\ listings db' = listings db
    /\ (forall b, b ∈ bookings db' <-> b ∈ bookings db /\ Booking.user b <> pk)
    /\ (forall r, r ∈ reviews db' <-> r ∈ reviews db /\ Review.user r <> pk)
    /\ (forall l, reviews_by_for pk l db' = []).
Proof.
  eexists. split; [ reflexivity | ]. simpl.
  assert (Hr : forall r,
             r ∈ List.filter (fun r => negb (Review.user r =? pk)) (reviews db)
             <-> r ∈ reviews db /\ Review.user r <> pk).
  { intros r. rewrite elem_of_bool_filter, negb_true_iff, Z.eqb_neq. reflexivity. }
  split; [ reflexivity | ]. split; [ | split; [ exact Hr | ] ].
  - intros b. rewrite elem_of_bool_filter, negb_true_iff, Z.eqb_neq. reflexivity.
  - intros l. unfold reviews_by_for. simpl. apply elem_of_nil_inv. intros r Hin.
    apply list_elem_of_filter in Hin. destruct Hin as [[Hu _] Hin].
    apply Hr in Hin. destruct Hin as [_ Hne]. contradiction.
Qed.

(** ** Count and average *)

(** X2: a listing serializes with a review count of 0 exactly when its
    average rating is [None]. *)
Theorem reviews_count_zero_iff_no_average (obj : Listing.t) (db : DB) :
  ListingSerializer.reviews_count obj db = 0
  <-> ListingSerializer.get_average_rating obj db = Ok VNone.
Proof.
  rewrite get_average_rating_none.
  unfold ListingSerializer.reviews_count, qs_count.
  destruct (Listing_reviews obj db) as [|r rs]; simpl; split; try done; lia.
Qed.

(** ** Labels of accepted ratings *)

Lemma get_rating_label_cases (obj : Review.t) :
  (Review.rating obj = 5 /\ ReviewSerializer.get_rating_label obj = "Excellent")
  \/ (Review.rating obj = 4 /\ ReviewSerializer.get_rating_label obj = "Good")
  \/ (Review.rating obj = 3 /\ ReviewSerializer.get_rating_label obj = "Average")
  \/ (Review.rating obj = 2 /\ ReviewSerializer.get_rating_label obj = "Poor")
  \/ (Review.rating obj = 1 /\ ReviewSerializer.get_rating_label obj = "Terrible")
  \/ ((Review.rating obj < 1 \/ 5 < Review.rating obj)
      /\ ReviewSerializer.get_rating_label obj = "").
Proof.
  unfold ReviewSerializer.get_rating_label.
  destruct (decide (Review.rating obj = 5)) as [->|H5]; [ left; done | right ].
  destruct (decide (Review.rating obj = 4)) as [->|H4]; [ left; done | right ].
  destruct (decide (Review.rating obj = 3)) as [->|H3]; [ left; done | right ].
  destruct (decide (Review.rating obj = 2)) as [->|H2]; [ left; done | right ].
  destruct (decide (Review.rating obj = 1)) as [->|H1]; [ left; done | right ].
  split; [ lia | ]. unfold ReviewSerializer.labels.
  rewrite !lookup_insert_ne by done. rewrite lookup_singleton_ne by done.
  reflexivity.
Qed.

Lemma validate_rating_Ok_iff (r r' : Z) :
  ReviewSerializer.validate_rating r = Ok r' <-> r' = r /\ 1 <= r <= 5.
Proof.
  unfold ReviewSerializer.validate_rating.
  destruct ((r <? 1) || (r >? 5)) eqn:Hb.
  - apply orb_true_iff in Hb. rewrite Z.gtb_ltb, !Z.ltb_lt in Hb.
    split; [ discriminate | lia ].
  - apply orb_false_iff in Hb. rewrite Z.gtb_ltb, !Z.ltb_ge in Hb.
    split; [ intros H; inversion H; lia | intros [-> _]; reflexivity ].
Qed.

(** X3: a review has a non-empty label exactly when its rating passes
    [validate_rating], and reviews with the same non-empty label have
    the same rating. *)
Theorem rating_label_of_accepted_rating (a b : Review.t) :
  (ReviewSerializer.get_rating_label a <> ""
   <-> ReviewSerializer.validate_rating (Review.rating a) = Ok (Review.rating a))
  /\ (ReviewSerializer.get_rating_label a <> "" ->
      ReviewSerializer.get_rating_label a = ReviewSerializer.get_rating_label b ->
      Review.rating a = Review.rating b).
Proof.
  rewrite validate_rating_Ok_iff. split.
  - destruct (get_rating_label_cases a)
      as [[Hr Hl]|[[Hr Hl]|[[Hr Hl]|[[Hr Hl]|[[Hr Hl]|[Hr Hl]]]]]];
      rewrite Hl; split; try done; try lia.
  - intros Hne Heq.
    destruct (get_rating_label_cases a)
      as [[Hr Hl]|[[Hr Hl]|[[Hr Hl]|[[Hr Hl]|[[Hr Hl]|[Hr Hl]]]]]];
      try contradiction;
      destruct (get_rating_label_cases b)
        as [[Hr' Hl']|[[Hr' Hl']|[[Hr' Hl']|[[Hr' Hl']|[[Hr' Hl']|[Hr' Hl']]]]]];
      rewrite Hl, Hl' in Heq; try discriminate; congruence.
Qed.

(** ** Data without a listing *)

(** X4: data without a "listing" entry passes the duplicate check
    whatever the store holds. *)
Theorem review_validate_without_listing (u : user_id) (data : dict) (db : DB) :
  data !! "listing" = None ->
  ReviewSerializer.validate u data db = Ok data.
Proof.
  intros H. rewrite review_validate_eq. unfold dict_get. rewrite H. simpl.
  assert (Hnil : Review_objects_filter u VNone db = []).
  { apply elem_of_nil_inv. intros r Hin. unfold Review_objects_filter in Hin.
    apply list_elem_of_filter in Hin. destruct Hin as [[_ Hl] _]. discriminate. }
  rewrite Hnil. reflexivity.
Qed.

Lemma review_validate_without_listing_witness :
  ReviewSerializer.validate 1 {[ "rating" := VInt 2 ]} Sample.db_54
  = Ok {[ "rating" := VInt 2 ]}.
Proof.
  apply (review_validate_without_listing 1 {[ "rating" := VInt 2 ]} Sample.db_54).
  reflexivity.
Defined.

(** ** Creating reviews and bookings *)





Lemma reviews_by_for_snoc (u : user_id) (pk : uuid) (db : DB) (row : Review.t) :
  reviews_by_for u pk db = [] ->
  Review.user row = u -> Review.listing row = pk ->
  reviews_by_for u pk (mkDB (listings db) (bookings db) (reviews db ++ [row]))
  = [row].
Proof.
  unfold reviews_by_for. simpl. intros Hnone Hu Hl.
  rewrite filter_app, Hnone. simpl. rewrite filter_cons.
  destruct (decide _) as [_|Hn]; [ reflexivity | ].
  exfalso. apply Hn. split; assumption.
Qed.




(** X8: after a user's review of a listing is created, no payload for
    that listing creates another review for the user, and the same
    payload again is refused with "You have already reviewed this
    listing." *)
Theorem create_review_again_refused (u : user_id) (p : dict) (new_id : uuid)
    (now : Z) (db : DB) (row : Review.t) (db' : DB) :
  Api.create_review u p new_id now db = Ok (row, db') ->
  (forall p' new_id' now' row' db'',
     p' !! "listing_id" = p !! "listing_id" ->
     Api.create_review u p' new_id' now' db' <> Ok (row', db''))
  /\ (forall new_id' now',
        Api.create_review u p new_id' now' db'
        = Raise (ValidationError "You have already reviewed this listing.")).
Proof.
  intros H. apply create_review_Ok in H.
  destruct H as (pk & r & c & Hl & Hex & Hr & Hrange & Hc & Hnone & Hrow & Hdb).
  assert (Hls : listings db' = listings db) by (rewrite Hdb; reflexivity).
  assert (Hone : reviews_by_for u pk db' = [row]).
  { rewrite Hdb. apply reviews_by_for_snoc; [ exact Hnone | | ];
      rewrite Hrow; reflexivity. }
  split.
  - intros p' new_id' now' row' db'' Hsame H'. apply create_review_Ok in H'.
    destruct H' as (pk' & r' & c' & Hl2 & _ & _ & _ & _ & Hnone' & _).
    rewrite Hsame, Hl in Hl2. inversion Hl2; subst pk'.
    rewrite Hone in Hnone'. discriminate Hnone'.
  - intros new_id' now'. unfold Api.create_review.
    assert (Hf : Api.review_fields p db'
                 = Ok {[ "listing" := VListing pk; "rating" := VInt r;
                         "comment" := VStr c ]}).
    { apply review_fields_Ok. exists pk, r, c. repeat split; try done; try lia.
      destruct Hex as (l & Hin & Hid). exists l. rewrite Hls. split; assumption. }
    rewrite Hf. simpl. rewrite review_validate_eq.
    change (dict_get _ "listing") with (VListing pk).
    rewrite review_filter_by_for, Hone. reflexivity.
Qed.

Lemma create_review_again_refused_witness :
  (forall p' new_id' now' row' db'',
     p' !! "listing_id" = Sample.review_payload 4 !! "listing_id" ->
     Api.create_review 3 p' new_id' now' Cases.db_after_three_reviews
     <> Ok (row', db''))
  /\ (forall new_id' now',
        Api.create_review 3 (Sample.review_payload 4) new_id' now'
          Cases.db_after_three_reviews
        = Raise (ValidationError "You have already reviewed this listing.")).
Proof.
  apply (create_review_again_refused 3 (Sample.review_payload 4) 12 7
           Sample.db_after_two_reviews Cases.review_12
           Cases.db_after_three_reviews).
  vm_compute. reflexivity.
Defined.

(** X9: a created booking carries the listing and dates of the payload
    and the requesting user, is the last row of the bookings table, and
    does not end before it starts; the same payload then books the same
    listing and dates again, for any user: bookings are not checked
    against each other. *)
Theorem create_booking_stores_payload (u : user_id) (p : dict) (new_id : uuid)
    (now : Z) (db : DB) (row : Booking.t) (db' : DB) :
  Api.create_booking u p new_id now db = Ok (row, db') ->
  (p !! "listing_id" = Some (VInt (Booking.listing row))
   /\ p !! "start_date" = Some (VDate (Booking.start_date row))
   /\ p !! "end_date" = Some (VDate (Booking.end_date row))
   /\ Booking.user row = u
   /\ Booking.id row = new_id
   /\ ~ date_lt (Booking.end_date row) (Booking.start_date row)
   /\ bookings db' = bookings db ++ [row]
   /\ listings db' = listings db
   /\ reviews db' = reviews db)
  /\ (forall u2 new_id2 now2,
        Api.create_booking u2 p new_id2 now2 db'
        = Ok (Booking.mk new_id2 (Booking.listing row) u2
                (Booking.start_date row) (Booking.end_date row) now2,
              mkDB (listings db')
                   (bookings db'
                      ++ [Booking.mk new_id2 (Booking.listing row) u2
                            (Booking.start_date row) (Booking.end_date row) now2])
                   (reviews db'))).
Proof.
  intros H. apply create_booking_Ok in H.
  destruct H as (pk & s & e & Hl & Hex & Hs & He & Hn & -> & ->). simpl.
  split; [ repeat split; done | ].
  intros u2 new_id2 now2. apply create_booking_Ok.
  exists pk, s, e. repeat split; try done.
Qed.

Lemma create_booking_stores_payload_witness :
  (Cases.booking_payload (mkDate 2024 1 10) (mkDate 2024 1 12) !! "listing_id"
   = Some (VInt (Booking.listing Cases.booking_30))
   /\ Cases.booking_payload (mkDate 2024 1 10) (mkDate 2024 1 12) !! "start_date"
      = Some (VDate (Booking.start_date Cases.booking_30))
   /\ Cases.booking_payload (mkDate 2024 1 10) (mkDate 2024 1 12) !! "end_date"
      = Some (VDate (Booking.end_date Cases.booking_30))
   /\ Booking.user Cases.booking_30 = 3
   /\ Booking.id Cases.booking_30 = 30
   /\ ~ date_lt (Booking.end_date Cases.booking_30)
               (Booking.start_date Cases.booking_30)
   /\ bookings Cases.db_after_booking
      = bookings Cases.db_listing_only ++ [Cases.booking_30]
   /\ listings Cases.db_after_booking = listings Cases.db_listing_only
   /\ reviews Cases.db_after_booking = reviews Cases.db_listing_only)
  /\ (forall u2 new_id2 now2,
        Api.create_booking u2
          (Cases.booking_payload (mkDate 2024 1 10) (mkDate 2024 1 12))
          new_id2 now2 Cases.db_after_booking
        = Ok (Booking.mk new_id2 (Booking.listing Cases.booking_30) u2
                (Booking.start_date Cases.booking_30)
                (Booking.end_date Cases.booking_30) now2,
              mkDB (listings Cases.db_after_booking)
                   (bookings Cases.db_after_booking
                      ++ [Booking.mk new_id2 (Booking.listing Cases.booking_30) u2
                            (Booking.start_date Cases.booking_30)
                            (Booking.end_date Cases.booking_30) now2])
                   (reviews Cases.db_after_booking))).
Proof.
  apply (create_booking_stores_payload 3
           (Cases.booking_payload (mkDate 2024 1 10) (mkDate 2024 1 12))
           30 7 Cases.db_listing_only Cases.booking_30 Cases.db_after_booking).
  vm_compute. reflexivity.
Defined.

(** ** Creating without validating *)

Lemma review_create_Ok (u : user_id) (data : dict) (new_id : uuid) (now : Z)
    (db : DB) (row : Review.t) (db' : DB) :
  ReviewSerializer.create u data new_id now db = Ok (row, db')
  <-> exists l r c,
        data !! "listing" = Some (VListing l)
        /\ data !! "rating" = Some (VInt r)
        /\ data !! "comment" = Some (VStr c)
        /\ row = Review.mk new_id l u r c now
        /\ db' = mkDB (listings db) (bookings db) (reviews db ++ [row]).
Proof.
  unfold ReviewSerializer.create, Review_objects_create.
  rewrite lookup_insert_eq. rewrite !lookup_insert_ne by done. split.
  - destruct (data !! "listing") as [[| | | | | |l]|]; try discriminate.
    destruct (data !! "rating") as [[|r| | | | |]|]; try discriminate.
    destruct (data !! "comment") as [[| |c| | | |]|]; try discriminate.
    intros H. inversion H. subst. eauto 10.
  - intros (l & r & c & -> & -> & -> & -> & ->). reflexivity.
Qed.

(** X10: [create] alone does not look for an earlier review: when it
    succeeds on some data it succeeds again on the store it gave, and
    the user then has at least two reviews of that listing. *)
Theorem review_create_does_not_check_duplicates (u : user_id) (data : dict)
    (new_id : uuid) (now : Z) (db : DB) (row : Review.t) (db' : DB) :
  ReviewSerializer.create u data new_id now db = Ok (row, db') ->
  forall new_id2 now2,
  exists row2 db2,
    ReviewSerializer.create u data new_id2 now2 db' = Ok (row2, db2)
    /\ Review.user row2 = Review.user row
    /\ Review.listing row2 = Review.listing row
    /\ (2 <= length (reviews_by_for (Review.user row) (Review.listing row) db2))%nat.
Proof.
  intros H new_id2 now2. apply review_create_Ok in H.
  destruct H as (l & r & c & Hl & Hr & Hc & -> & ->).
  eexists. eexists. split.
  - apply review_create_Ok. exists l, r, c. repeat split; done.
  - simpl. repeat split. unfold reviews_by_for. simpl.
    rewrite !filter_app, !length_app.
    rewrite !filter_cons. simpl.
    destruct (decide (u = u /\ l = l)) as [_|Hn]; [ simpl; lia | ].
    exfalso. apply Hn. split; reflexivity.
Qed.

Lemma review_create_does_not_check_duplicates_witness :
  exists row2 db2,
    ReviewSerializer.create 3 Sample.review_data 13 8
      (mkDB (listings Sample.db_54) (bookings Sample.db_54)
            (reviews Sample.db_54 ++ [Review.mk 12 1 3 4 "fine" 7]))
    = Ok (row2, db2)
    /\ Review.user row2 = Review.user (Review.mk 12 1 3 4 "fine" 7)
    /\ Review.listing row2 = Review.listing (Review.mk 12 1 3 4 "fine" 7)
    /\ (2 <= length (reviews_by_for (Review.user (Review.mk 12 1 3 4 "fine" 7))
                       (Review.listing (Review.mk 12 1 3 4 "fine" 7)) db2))%nat.
Proof.
  refine (review_create_does_not_check_duplicates 3 Sample.review_data 12 7
            Sample.db_54 (Review.mk 12 1 3 4 "fine" 7)
            (mkDB (listings Sample.db_54) (bookings Sample.db_54)
                  (reviews Sample.db_54 ++ [Review.mk 12 1 3 4 "fine" 7]))
            _ 13 8).
  vm_compute. reflexivity.
Defined.

(** ** What the stores reached by create requests hold *)

Lemma create_listing_Ok_inv (p : dict) (new_id : uuid) (now : Z) (db : DB)
    (row : Listing.t) (db' : DB) :
  Api.create_listing p new_id now db = Ok (row, db') ->
  Listing.id row = new_id
  /\ db' = mkDB (listings db ++ [row]) (bookings db) (reviews db).
Proof.
  unfold Api.create_listing. intros H.
  repeat (apply bind_Ok_inv in H; destruct H as (? & _ & H)).
  inversion H. split; reflexivity.
Qed.

Lemma listing_exists_mono (pk : uuid) (db db' : DB) :
  (forall l, l ∈ listings db -> l ∈ listings db') ->
  listing_exists pk db -> listing_exists pk db'.
Proof. intros Hsub (l & Hin & Hid). exists l. auto. Qed.

Lemma rows_ok_mono (db db' : DB) :
  (forall l, l ∈ listings db -> l ∈ listings db') ->
  Forall (review_ok db) (reviews db) /\ Forall (booking_ok db) (bookings db) ->
  Forall (review_ok db') (reviews db) /\ Forall (booking_ok db') (bookings db).
Proof.
  intros Hsub [Hr Hb]. split.
  - eapply Forall_impl; [ exact Hr | ]. intros r [H1 H2]. split; [ exact H1 | ].
    eapply listing_exists_mono; eauto.
  - eapply Forall_impl; [ exact Hb | ]. intros b [H1 H2]. split; [ exact H1 | ].
    eapply listing_exists_mono; eauto.
Qed.

Lemma handle_preserves_rows_ok (req : Api.request) (new_id : uuid) (now : Z)
    (db db' : DB) :
  rows_ok db -> Api.handle req new_id now db = Ok db' -> rows_ok db'.
Proof.
  unfold rows_ok. intros Hinv H. destruct req as [p | u p | u p]; simpl in H;
    apply bind_Ok_inv in H; destruct H as ([row db1] & Hc & H);
    inversion H; subst db1.
  - apply create_listing_Ok_inv in Hc. destruct Hc as [_ ->]. simpl.
    apply (rows_ok_mono db); [ | exact Hinv ].
    simpl. intros l Hl. apply elem_of_app. left. exact Hl.
  - apply create_booking_Ok in Hc.
    destruct Hc as (pk & s & e & _ & Hex & _ & _ & Hn & -> & ->). simpl.
    destruct (rows_ok_mono db (mkDB (listings db)
                (bookings db ++ [Booking.mk new_id pk u s e now]) (reviews db))
                (fun l Hl => Hl) Hinv) as [Hr Hb].
    split; [ exact Hr | ]. apply Forall_app. split; [ exact Hb | ].
    apply Forall_singleton. split; [ exact Hn | exact Hex ].
  - apply create_review_Ok in Hc.
    destruct Hc as (pk & r & c & _ & Hex & _ & Hrange & _ & _ & -> & ->). simpl.
    destruct (rows_ok_mono db (mkDB (listings db) (bookings db)
                (reviews db ++ [Review.mk new_id pk u r c now]))
                (fun l Hl => Hl) Hinv) as [Hr Hb].
    split; [ | exact Hb ]. apply Forall_app. split; [ exact Hr | ].
    apply Forall_singleton. split; [ exact Hrange | exact Hex ].
Qed.

Lemma reachable_rows_ok (db : DB) : Api.reachable db -> rows_ok db.
Proof.
  induction 1 as [| db db' req new_id now _ IH Hstep].
  - split; apply Forall_nil; exact I.
  - exact (handle_preserves_rows_ok req new_id now db db' IH Hstep).
Qed.

(** X11: in every store reached by create requests, each review has a
    rating from 1 to 5, hence a non-empty label, and belongs to a
    listing of the store. *)
Theorem reachable_reviews_valid (db : DB) :
  Api.reachable db ->
  forall r, r ∈ reviews db ->
    1 <= Review.rating r <= 5
    /\ ReviewSerializer.get_rating_label r <> ""
    /\ listing_exists (Review.listing r) db.
Proof.
  intros Hreach r Hin. apply reachable_rows_ok in Hreach.
  destruct Hreach as [Hr _]. rewrite Forall_forall in Hr.
  destruct (Hr r Hin) as [Hrange Hex]. split; [ exact Hrange | ].
  split; [ | exact Hex ].
  destruct (get_rating_label_cases r)
    as [[_ Hl]|[[_ Hl]|[[_ Hl]|[[_ Hl]|[[_ Hl]|[Hout _]]]]]];
    try (rewrite Hl; discriminate). lia.
Qed.

Lemma reachable_reviews_valid_witness :
  1 <= Review.rating (Sample.review 11 2 5) <= 5
  /\ ReviewSerializer.get_rating_label (Sample.review 11 2 5) <> ""
  /\ listing_exists (Review.listing (Sample.review 11 2 5))
       Sample.db_after_two_reviews.
Proof.
  apply (reachable_reviews_valid Sample.db_after_two_reviews reachable_sample
           (Sample.review 11 2 5)).
  right. left.
Defined.

(** X12: in every store reached by create requests, no booking ends
    before it starts, and each booking belongs to a listing of the
    store. *)
Theorem reachable_bookings_valid (db : DB) :
  Api.reachable db ->
  forall b, b ∈ bookings db ->
    ~ date_lt (Booking.end_date b) (Booking.start_date b)
    /\ listing_exists (Booking.listing b) db.
Proof.
  intros Hreach b Hin. apply reachable_rows_ok in Hreach.
  destruct Hreach as [_ Hb]. rewrite Forall_forall in Hb. exact (Hb b Hin).
Qed.

Lemma reachable_after_booking : Api.reachable Cases.db_after_booking.
Proof.
  apply (Api.reachable_step Cases.db_listing_only Cases.db_after_booking
           (Api.CreateBooking 3
              (Cases.booking_payload (mkDate 2024 1 10) (mkDate 2024 1 12)))
           30 7);
    [ | vm_compute; reflexivity ].
  apply (Api.reachable_step empty_db Cases.db_listing_only
           (Api.CreateListing Sample.listing_payload) 1 0);
    [ | vm_compute; reflexivity ].
  apply Api.reachable_empty.
Defined.

Lemma reachable_bookings_valid_witness :
  ~ date_lt (Booking.end_date Cases.booking_30)
            (Booking.start_date Cases.booking_30)
  /\ listing_exists (Booking.listing Cases.booking_30) Cases.db_after_booking.
Proof.
  apply (reachable_bookings_valid Cases.db_after_booking reachable_after_booking
           Cases.booking_30).
  left.
Defined.

(** ** What leaves a listing's figures alone *)

Lemma listing_figures_eq (obj : Listing.t) (db db' : DB) :
  Listing_reviews obj db' = Listing_reviews obj db ->
  ListingSerializer.get_average_rating obj db'
  = ListingSerializer.get_average_rating obj db
  /\ ListingSerializer.reviews_count obj db'
     = ListingSerializer.reviews_count obj db.
Proof.
  intros H. unfold ListingSerializer.get_average_rating,
    ListingSerializer.reviews_count. rewrite H. split; reflexivity.
Qed.



(** ** Deleting twice, and deleting next to other rows *)

Lemma bool_filter_idemp {A : Type} (q : A -> bool) (xs : list A) :
  List.filter q (List.filter q xs) = List.filter q xs.
Proof.
  induction xs as [|x xs IH]; simpl; [ reflexivity | ].
  destruct (q x) eqn:Hq; simpl; rewrite ?Hq, IH; reflexivity.
Qed.

Lemma filter_bool_filter {A : Type} (P : A -> Prop) `{forall x, Decision (P x)}
    (q : A -> bool) (xs : list A) :
  (forall x, P x -> q x = true) ->
  filter P (List.filter q xs) = filter P xs.
Proof.
  intros Hpq. induction xs as [|x xs IH]; simpl; [ reflexivity | ].
  destruct (q x) eqn:Hq.
  - rewrite !filter_cons, IH. reflexivity.
  - rewrite filter_cons, IH. destruct (decide (P x)) as [HP|_]; [ | reflexivity ].
    apply Hpq in HP. congruence.
Qed.

(** X14: deleting a listing leaves the reviews, the bookings, the
    average rating and the review count of every other listing as they
    were, and deleting it a second time changes nothing. *)
Theorem delete_listing_keeps_others (pk : uuid) (db db' : DB) :
  delete_listing pk db = Ok db' ->
  delete_listing pk db' = Ok db'
  /\ (forall obj, Listing.id obj <> pk ->
        Listing_reviews obj db' = Listing_reviews obj db
        /\ Listing_bookings obj db' = Listing_bookings obj db
        /\ ListingSerializer.get_average_rating obj db'
           = ListingSerializer.get_average_rating obj db
        /\ ListingSerializer.reviews_count obj db'
           = ListingSerializer.reviews_count obj db).
Proof.
  intros H. inversion H; subst db'. clear H. split.
  - unfold delete_listing. simpl. rewrite !bool_filter_idemp. reflexivity.
  - intros obj Hne.
    assert (Hrs : Listing_reviews obj
                    (mkDB (List.filter (fun l => negb (Listing.id l =? pk)) (listings db))
                          (List.filter (fun b => negb (Booking.listing b =? pk)) (bookings db))
                          (List.filter (fun r => negb (Review.listing r =? pk)) (reviews db)))
                  = Listing_reviews obj db).
    { unfold Listing_reviews. simpl. apply filter_bool_filter.
      intros r Hr. apply negb_true_iff, Z.eqb_neq. congruence. }
    split; [ exact Hrs | ]. split.
    + unfold Listing_bookings. simpl. apply filter_bool_filter.
      intros b Hb. apply negb_true_iff, Z.eqb_neq. congruence.
    + apply listing_figures_eq. exact Hrs.
Qed.

Lemma delete_listing_keeps_others_witness :
  delete_listing 1 Cases.db_listing_2_only = Ok Cases.db_listing_2_only
  /\ (forall obj, Listing.id obj <> 1 ->
        Listing_reviews obj Cases.db_listing_2_only
        = Listing_reviews obj Cases.db_two_listings
        /\ Listing_bookings obj Cases.db_listing_2_only
           = Listing_bookings obj Cases.db_two_listings
        /\ ListingSerializer.get_average_rating obj Cases.db_listing_2_only
           = ListingSerializer.get_average_rating obj Cases.db_two_listings
        /\ ListingSerializer.reviews_count obj Cases.db_listing_2_only
           = ListingSerializer.reviews_count obj Cases.db_two_listings).
Proof.
  apply (delete_listing_keeps_others 1 Cases.db_two_listings
           Cases.db_listing_2_only).
  vm_compute. reflexivity.
Defined.

Lemma NoDup_fmap_bool_filter {A B : Type} (f : A -> B) (q : A -> bool)
    (xs : list A) :
  NoDup (f <$> xs) -> NoDup (f <$> List.filter q xs).
Proof.
  induction xs as [|x xs IH]; intros Hnd; [ exact Hnd | ].
  rewrite fmap_cons in Hnd. apply NoDup_cons in Hnd. destruct Hnd as [Hnotin Hnd].
  cbn [List.filter]. destruct (q x); [ | auto ].
  rewrite fmap_cons. apply NoDup_cons. split; [ | auto ].
  intros Hin. apply Hnotin. apply list_elem_of_fmap in Hin.
  destruct Hin as (y & Hy & Hin). apply elem_of_bool_filter in Hin.
  apply list_elem_of_fmap. exists y. tauto.
Qed.

(** X15: deleting a listing or a user keeps the reviews table free of
    two rows with the same user and listing. *)
Theorem deletes_keep_unique_reviews (pk : Z) (db db' : DB) :
  unique_reviews db ->
  delete_listing pk db = Ok db' \/ delete_user pk db = Ok db' ->
  unique_reviews db'.
Proof.
  unfold unique_reviews. intros Hu [H | H]; inversion H; subst db'; simpl;
    apply NoDup_fmap_bool_filter; exact Hu.
Qed.

Lemma deletes_keep_unique_reviews_witness :
  unique_reviews (mkDB (listings Sample.db_54) [] [Sample.review 2 2 4]).
Proof.
  apply (deletes_keep_unique_reviews 1 Sample.db_54).
  - unfold unique_reviews. simpl. apply NoDup_cons. split.
    + intros Hin. apply list_elem_of_singleton in Hin. discriminate Hin.
    + apply NoDup_singleton.
  - right. reflexivity.
Defined.

(** ** Rounding the average *)

(** X16: for a finite float of magnitude m * 2^e, [Decimal] and
    [quantize] give a decimal of [t] tenths with the sign of the float,
    where t/10 is the nearest tenth to the magnitude and a magnitude
    halfway between two tenths goes up. *)
Theorem quantize_float_is_half_up (s : bool) (m : positive) (e : Z) (d : Decimal) :
  Dec.quantize_tenths_half_up (Dec.from_float (S754_finite s m e)) = Ok d ->
  exists t,
    d = DFinite s t (-1)
    /\ 0 <= t < 10 ^ Dec.context_prec
    /\ (e < 0 ->
        2 ^ (- e) * (2 * t - 1) <= 20 * Zpos m < 2 ^ (- e) * (2 * t + 1))
    /\ (0 <= e -> t = 10 * (Zpos m * 2 ^ e)).
Proof.
  unfold Dec.from_float, Dec.quantize_tenths_half_up, Dec.tenths_half_up.
  destruct (0 <=? e) eqn:He.
  - apply Z.leb_le in He.
    change (-1 <=? 0) with true. cbv iota. change (10 ^ (0 + 1)) with 10.
    destruct (10 ^ Dec.context_prec <=? Z.pos m * 2 ^ e * 10) eqn:Hp;
      [ intros Hx; discriminate Hx | ].
    apply Z.leb_gt in Hp. intros H. inversion H; subst d.
    exists (Z.pos m * 2 ^ e * 10). split; [ reflexivity | ].
    assert (0 < 2 ^ e) by (apply Z.pow_pos_nonneg; lia).
    repeat split; try lia; nia.
  - apply Z.leb_gt in He.
    destruct (-1 <=? e) eqn:He1.
    + apply Z.leb_le in He1. assert (e = -1) by lia. subst e.
      change (5 ^ (- -1)) with 5. change (10 ^ (-1 + 1)) with 1.
      destruct (10 ^ Dec.context_prec <=? Z.pos m * 5 * 1) eqn:Hp;
        [ intros Hx; discriminate Hx | ].
      apply Z.leb_gt in Hp. intros H. inversion H; subst d.
      exists (Z.pos m * 5 * 1). split; [ reflexivity | ].
      change (2 ^ (- -1)) with 2. repeat split; lia.
    + apply Z.leb_gt in He1.
      set (k := - e). assert (Hk : 2 <= k) by (unfold k; lia).
      replace (-1 - e) with (k - 1) by (unfold k; lia).
      set (P := 5 ^ (k - 1)). set (T := 2 ^ (k - 1)).
      assert (HP : 0 < P) by (apply Z.pow_pos_nonneg; lia).
      assert (HT : 0 < T) by (apply Z.pow_pos_nonneg; lia).
      assert (Hu : 10 ^ (k - 1) = T * P).
      { unfold T, P. rewrite <- Z.pow_mul_l. reflexivity. }
      assert (H5 : 5 ^ k = 5 * P).
      { unfold P. replace k with (Z.succ (k - 1)) at 1 by lia.
        rewrite Z.pow_succ_r by lia. reflexivity. }
      assert (H2 : 2 ^ k = 2 * T).
      { unfold T. replace k with (Z.succ (k - 1)) at 1 by lia.
        rewrite Z.pow_succ_r by lia. reflexivity. }
      rewrite Hu, H5.
      set (c := Z.pos m * (5 * P)). set (u := T * P).
      assert (Hupos : 0 < u) by (unfold u; nia).
      pose proof (Z.div_mod c u ltac:(lia)) as Hdm.
      pose proof (Z.mod_pos_bound c u Hupos) as Hmod.
      set (q := c / u) in *. set (r := c mod u) in *.
      assert (Hq : 0 <= q).
      { unfold q. apply Z.div_pos; [ unfold c; nia | exact Hupos ]. }
      destruct (10 ^ Dec.context_prec <=? (if u <=? 2 * r then q + 1 else q)) eqn:Hp;
        [ intros Hx; discriminate Hx | ].
      apply Z.leb_gt in Hp. intros H. inversion H; subst d.
      eexists. split; [ reflexivity | ].
      split; [ destruct (u <=? 2 * r); lia | ].
      split; [ | lia ]. intros _. rewrite H2.
      assert (Hc : 2 * c = 10 * Z.pos m * P) by (unfold c; lia).
      destruct (u <=? 2 * r) eqn:Hur;
        [ apply Z.leb_le in Hur | apply Z.leb_gt in Hur ]; unfold u in *; nia.
Qed.

Lemma quantize_float_is_half_up_witness :
  exists t,
    DFinite false 11 (-1) = DFinite false t (-1)
    /\ 0 <= t < 10 ^ Dec.context_prec
    /\ (-52 < 0 ->
        2 ^ (- -52) * (2 * t - 1) <= 20 * Zpos 5179139571476070
        < 2 ^ (- -52) * (2 * t + 1))
    /\ (0 <= -52 -> t = 10 * (Zpos 5179139571476070 * 2 ^ (-52))).
Proof.
  apply (quantize_float_is_half_up false 5179139571476070 (-52)
           (DFinite false 11 (-1))).
  vm_compute. reflexivity.
Defined.

(** ** The average of ratings from 1 to 5 *)

Lemma fold_left_add_bounds (lo hi : Z) (xs : list Z) (a : Z) :
  Forall (fun x => lo <= x <= hi) xs ->
  a + lo * Z.of_nat (length xs) <= fold_left Z.add xs a
  <= a + hi * Z.of_nat (length xs).
Proof.
  intros H. revert a. induction H as [|x xs Hx _ IH]; intros a.
  - simpl. lia.
  - cbn [fold_left length]. specialize (IH (a + x)). lia.
Qed.

Lemma py_sum_bounds (lo hi : Z) (xs : list Z) :
  Forall (fun x => lo <= x <= hi) xs ->
  lo * Z.of_nat (length xs) <= py_sum xs <= hi * Z.of_nat (length xs).
Proof.
  intros H. unfold py_sum.
  pose proof (fold_left_add_bounds lo hi xs 0 H). lia.
Qed.

Lemma average_within_tenth_upto_spec (bound : nat) (s n : Z) :
  average_within_tenth_upto bound = true ->
  1 <= n <= Z.of_nat bound -> n <= s <= 5 * n ->
  average_within_tenth s n = true.
Proof.
  unfold average_within_tenth_upto. intros H Hn Hs.
  rewrite forallb_forall in H.
  assert (Hin : In (Z.to_nat n) (seq 1 bound)) by (apply in_seq; lia).
  apply H in Hin. clear H. rewrite forallb_forall in Hin.
  assert (Hin' : In (Z.to_nat (s - n)) (seq 0 (4 * Z.to_nat n + 1)))
    by (apply in_seq; lia).
  apply Hin in Hin'. clear Hin.
  replace (Z.of_nat (Z.to_nat n) + Z.of_nat (Z.to_nat (s - n))) with s in Hin'
    by lia.
  replace (Z.of_nat (Z.to_nat n)) with n in Hin' by lia. exact Hin'.
Qed.

Lemma average_within_tenth_50 : average_within_tenth_upto 50 = true.
Proof. vm_cast_no_check (eq_refl true). Qed.

Lemma average_within_tenth_sum_count (s n : Z) :
  1 <= n <= 50 -> n <= s <= 5 * n -> average_within_tenth s n = true.
Proof.
  intros Hn Hs.
  exact (average_within_tenth_upto_spec 50 s n average_within_tenth_50 Hn Hs).
Qed.

(** What [get_average_rating] returns for a sum and a count that pass
    [average_within_tenth]. *)
Lemma get_average_rating_within_tenth (obj : Listing.t) (db : DB) (s n : Z) :
  Listing_reviews obj db <> [] ->
  py_sum (map Review.rating (Listing_reviews obj db)) = s ->
  qs_count (Listing_reviews obj db) = n ->
  average_within_tenth s n = true ->
  exists t f,
    ListingSerializer.get_average_rating obj db = Ok (VFloat f)
    /\ float_of_tenths t = Ok f
    /\ 10 <= t <= 50
    /\ (t = (2 * 10 * s + n) / (2 * n)
        \/ (mean_is_tie s n = true /\ t = (2 * 10 * s + n) / (2 * n) - 1)).
Proof.
  intros Hne Hs Hn Hchk. unfold ListingSerializer.get_average_rating.
  destruct (Listing_reviews obj db) as [|r rs] eqn:E; [ contradiction | ].
  cbn [qs_exists negb]. rewrite Hs, Hn.
  unfold average_within_tenth, average_decimal in Hchk.
  unfold mbind, outcome_bind in *.
  destruct (Float64.int_true_div s n) as [avg|]; [ | discriminate Hchk ].
  destruct (Dec.quantize_tenths_half_up (Dec.from_float avg))
    as [[[|] t e| |]|]; try discriminate Hchk.
  unfold float_of_tenths in *.
  repeat (apply andb_true_iff in Hchk; destruct Hchk as [Hchk ?]).
  apply Z.eqb_eq in Hchk. subst e.
  destruct (Dec.to_float (DFinite false t (-1))) as [f|] eqn:Hf;
    [ | discriminate ].
  exists t, f. split; [ reflexivity | ]. split; [ exact Hf | ].
  split; [ lia | ].
  match goal with
  | Hd : _ || _ = true |- _ => apply orb_true_iff in Hd; destruct Hd as [Hx|Hx]
  end.
  - left. apply Z.eqb_eq. exact Hx.
  - right. apply andb_true_iff in Hx. destruct Hx as [Ht Hx].
    split; [ exact Ht | apply Z.eqb_eq; exact Hx ].
Qed.

Lemma ratings_Forall (rs : list Review.t) (lo hi : Z) :
  (forall r, r ∈ rs -> lo <= Review.rating r <= hi) ->
  Forall (fun x => lo <= x <= hi) (map Review.rating rs).
Proof.
  intros H. apply Forall_forall. intros x Hx.
  apply list_elem_of_In, in_map_iff in Hx. destruct Hx as (r & <- & Hr).
  apply H. apply list_elem_of_In. exact Hr.
Qed.

(** X17: for a listing with 1 to 50 reviews, all with ratings from 1
    to 5, [get_average_rating] does not raise and returns the float of
    a number of tenths t between 1.0 and 5.0; t is the exact mean
    rounded to tenths with halves going up, except that it may be one
    tenth less when the exact mean is halfway between two tenths. *)
Theorem average_of_valid_ratings (obj : Listing.t) (db : DB) :
  (1 <= length (Listing_reviews obj db) <= 50)%nat ->
  (forall r, r ∈ Listing_reviews obj db -> 1 <= Review.rating r <= 5) ->
  exists t f,
    ListingSerializer.get_average_rating obj db = Ok (VFloat f)
    /\ float_of_tenths t = Ok f
    /\ 10 <= t <= 50
    /\ (t = mean_tenths_half_up (map Review.rating (Listing_reviews obj db))
        \/ (mean_is_tie (py_sum (map Review.rating (Listing_reviews obj db)))
                        (qs_count (Listing_reviews obj db)) = true
            /\ t = mean_tenths_half_up
                     (map Review.rating (Listing_reviews obj db)) - 1)).
Proof.
  intros Hlen Hr. unfold mean_tenths_half_up. rewrite length_map.
  pose proof (py_sum_bounds 1 5 _ (ratings_Forall _ 1 5 Hr)) as Hsum.
  rewrite length_map in Hsum.
  apply (get_average_rating_within_tenth obj db
           (py_sum (map Review.rating (Listing_reviews obj db)))
           (qs_count (Listing_reviews obj db))).
  - intros E. rewrite E in Hlen. simpl in Hlen. lia.
  - reflexivity.
  - reflexivity.
  - apply average_within_tenth_sum_count; unfold qs_count; lia.
Qed.

Lemma average_of_valid_ratings_witness :
  exists t f,
    ListingSerializer.get_average_rating Sample.listing_1 Sample.db_20
    = Ok (VFloat f)
    /\ float_of_tenths t = Ok f
    /\ 10 <= t <= 50
    /\ (t = mean_tenths_half_up
              (map Review.rating (Listing_reviews Sample.listing_1 Sample.db_20))
        \/ (mean_is_tie
              (py_sum (map Review.rating
                         (Listing_reviews Sample.listing_1 Sample.db_20)))
              (qs_count (Listing_reviews Sample.listing_1 Sample.db_20)) = true
            /\ t = mean_tenths_half_up
                     (map Review.rating
                        (Listing_reviews Sample.listing_1 Sample.db_20)) - 1)).
Proof.
  apply (average_of_valid_ratings Sample.listing_1 Sample.db_20).
  - vm_compute. lia.
  - apply Forall_forall. apply (bool_decide_unpack _). vm_compute. exact I.
Defined.

Lemma py_sum_constant (x : Z) (xs : list Z) :
  Forall (fun y => y = x) xs -> py_sum xs = x * Z.of_nat (length xs).
Proof.
  intros H.
  assert (Hb : Forall (fun y => x <= y <= x) xs).
  { eapply Forall_impl; [ exact H | ]. simpl. intros y ->. lia. }
  pose proof (py_sum_bounds x x xs Hb). lia.
Qed.

(** X18: when the 1 to 50 reviews of a listing all have the same
    rating r from 1 to 5, the average rating is the float of r.0. *)
Theorem average_of_equal_ratings (obj : Listing.t) (db : DB) (r : Z) :
  (1 <= length (Listing_reviews obj db) <= 50)%nat ->
  1 <= r <= 5 ->
  (forall x, x ∈ Listing_reviews obj db -> Review.rating x = r) ->
  exists f,
    ListingSerializer.get_average_rating obj db = Ok (VFloat f)
    /\ float_of_tenths (10 * r) = Ok f.
Proof.
  intros Hlen Hr Hall.
  assert (Hsum : py_sum (map Review.rating (Listing_reviews obj db))
                 = r * qs_count (Listing_reviews obj db)).
  { unfold qs_count. rewrite <- (length_map Review.rating).
    apply py_sum_constant. apply Forall_forall. intros y Hy.
    apply list_elem_of_In, in_map_iff in Hy. destruct Hy as (x & <- & Hx).
    apply Hall. apply list_elem_of_In. exact Hx. }
  set (n := qs_count (Listing_reviews obj db)) in *.
  assert (Hn : 1 <= n <= 50) by (unfold n, qs_count; lia).
  destruct (get_average_rating_within_tenth obj db (r * n) n)
    as (t & f & Hres & Hf & _ & Ht).
  - intros E. rewrite E in Hlen. simpl in Hlen. lia.
  - exact Hsum.
  - reflexivity.
  - apply average_within_tenth_sum_count; nia.
  - assert (Hexact : (2 * 10 * (r * n) + n) / (2 * n) = 10 * r).
    { symmetry. apply (Z.div_unique _ _ _ n); [ lia | ring ]. }
    assert (Hmod : (2 * 10 * (r * n) + n) mod (2 * n) = n).
    { symmetry. apply (Z.mod_unique _ _ (10 * r)); [ lia | ring ]. }
    assert (Hnotie : mean_is_tie (r * n) n = false).
    { unfold mean_is_tie. rewrite Hmod. apply Z.eqb_neq. lia. }
    exists f. split; [ exact Hres | ].
    destruct Ht as [Ht | [Htie _]]; [ | congruence ].
    rewrite Hexact in Ht. subst t. exact Hf.
Qed.

Lemma average_of_equal_ratings_witness :
  exists f,
    ListingSerializer.get_average_rating Sample.listing_1
      (mkDB [Sample.listing_1] [] [Sample.review 1 1 3; Sample.review 2 2 3])
    = Ok (VFloat f)
    /\ float_of_tenths (10 * 3) = Ok f.
Proof.
  apply (average_of_equal_ratings Sample.listing_1
           (mkDB [Sample.listing_1] [] [Sample.review 1 1 3; Sample.review 2 2 3]) 3).
  - vm_compute. lia.
  - lia.
  - apply Forall_forall. apply (bool_decide_unpack _). vm_compute. exact I.
Defined.
